(** * The hotel-booking dialogue of [main.py]

    A shallow embedding of [process_user_input] (the conversation state
    machine) and of the way the two webhook handlers, [incoming_call] and
    [gather_response], read and write the global [active_calls] table.

    Conventions of the model.
    - A Python [str] is a [string] whose characters are the code points of
      the text, so the model covers text in the range U+0000..U+00FF.
      [str.strip], [str.lower] and the [in] test on strings are defined on
      those code points as CPython defines them.
    - A conversation state is a Python [dict] with [str] keys.  The only
      values the program ever stores in such a dict are strings (the step
      label and the caller's answers), so a dict is a [gmap string string].
      Equality of dicts in Python ignores insertion order, as equality of
      [gmap]s does.
    - [process_user_input] updates the dict it is given in place and returns
      that same object.  Each stored dict is reachable through one key of
      [active_calls] only (every record is created by a dict literal and put
      back under the key it was read from), so dicts are modelled by value.
    - The parameter [state] is unchecked at run time: besides a dict the
      model admits [None], on which attribute access raises. *)

From Stdlib Require Import Ascii String NArith Bool Lia.
From stdpp Require Import base option strings gmap fin_maps.

Local Open Scope string_scope.

(** ** Python string operations *)

Module PyStr.

(** [Py_UNICODE_ISSPACE] on code points below 256: TAB..CR, FS..US, SPACE,
    NEL (U+0085) and NBSP (U+00A0). *)
Definition isspace (c : ascii) : bool :=
  let n := N_of_ascii c in
  ((9 <=? n) && (n <=? 13) || (28 <=? n) && (n <=? 32)
   || (n =? 133) || (n =? 160))%N.

(** [str.lower] on one code point below 256: A..Z, and the accented
    capitals U+00C0..U+00DE except the multiplication sign U+00D7, move up
    by 32; everything else is left alone. *)
Definition lower_char (c : ascii) : ascii :=
  let n := N_of_ascii c in
  if ((65 <=? n) && (n <=? 90)
      || (192 <=? n) && (n <=? 222) && negb (n =? 215))%N
  then ascii_of_N (n + 32) else c.

Fixpoint lower (s : string) : string :=
  match s with
  | EmptyString => EmptyString
  | String c s' => String (lower_char c) (lower s')
  end.

(** Truth value of a string: [not text] holds for the empty string only. *)
Definition is_empty (s : string) : bool :=
  match s with EmptyString => true | String _ _ => false end.

Fixpoint lstrip (s : string) : string :=
  match s with
  | EmptyString => EmptyString
  | String c s' => if isspace c then lstrip s' else s
  end.

Fixpoint rstrip (s : string) : string :=
  match s with
  | EmptyString => EmptyString
  | String c s' =>
      let r := rstrip s' in
      if isspace c && is_empty r then EmptyString else String c r
  end.

(** [text.strip()]: whitespace removed at both ends. *)
Definition strip (s : string) : string := rstrip (lstrip s).

(** [needle in hay] for strings: [needle] starts at some position of
    [hay]. *)
Fixpoint contains (needle hay : string) : bool :=
  String.prefix needle hay
  || match hay with
     | EmptyString => false
     | String _ hay' => contains needle hay'
     end.

(** The first, respectively the last, character is whitespace. *)
Definition starts_space (s : string) : bool :=
  match s with
  | EmptyString => false
  | String c _ => isspace c
  end.

Fixpoint ends_space (s : string) : bool :=
  match s with
  | EmptyString => false
  | String c s' =>
      match s' with
      | EmptyString => isspace c
      | String _ _ => ends_space s'
      end
  end.

(** A string without any whitespace character. *)
Fixpoint no_space (s : string) : bool :=
  match s with
  | EmptyString => true
  | String c s' => negb (isspace c) && no_space s'
  end.

End PyStr.

(** ** Conversation states and the session table *)

(** A conversation state, and the [active_calls] table keyed by CallSid. *)
Abbreviation dict := (gmap string string).
Abbreviation calls := (gmap string dict).

(** What may be passed for the parameter [state]. *)
Inductive pyvalue : Type :=
| PyNone
| PyDict (d : dict).

Inductive pyexc : Type :=
| AttributeError.

(** Outcome of a call: a returned value or a raised exception. *)
Inductive result (A : Type) : Type :=
| Returns (a : A)
| Raises (e : pyexc).
Arguments Returns {A} a.
Arguments Raises {A} e.

(** [not state]: [None] and the empty dict are falsy. *)
Definition py_not (state : pyvalue) : bool :=
  match state with
  | PyNone => true
  | PyDict d => bool_decide (d = ∅)
  end.

(** [k in d] for a dict. *)
Definition has_key (k : string) (d : dict) : bool :=
  bool_decide (is_Some (d !! k)).

(** How an f-string renders [state.get(k)]: the value, or [None]. *)
Definition fmt (v : option string) : string := default "None" v.

(** The record [{"step": "ask_location"}]. *)
Definition fresh : dict := {[ "step" := "ask_location" ]}.

(** ** The dialogue engine *)

Definition process_user_input (text : string) (state : pyvalue)
  : result (string * dict) :=
  let text := PyStr.strip text in
  if PyStr.is_empty text then
    match state with
    | PyNone => Raises AttributeError
    | PyDict d =>
        let current_step := default "ask_location" (d !! "step") in
        if String.eqb current_step "ask_location" then
          Returns ("Which city or hotel are you interested in?", d)
        else if String.eqb current_step "ask_dates" then
          Returns ("What dates would you like to book? Please say your check-in and check-out dates.", d)
        else if String.eqb current_step "ask_room_type" then
          Returns ("What type of room would you like? For example, single, double, or suite.", d)
        else if String.eqb current_step "confirm" then
          Returns ("Please confirm your booking. Is that correct?", d)
        else
          Returns ("Please provide your input.", d)
    end
  else
    match state with
    | PyNone =>
        Returns ("Which city or hotel are you interested in?",
                 {[ "step" := "ask_location" ]})
    | PyDict d =>
        if py_not (PyDict d) || negb (has_key "step" d) then
          Returns ("Which city or hotel are you interested in?",
                   {[ "step" := "ask_location" ]})
        else
          let step := d !! "step" in
          if bool_decide (step = Some "ask_location") then
            let d := <["location" := text]> d in
            let d := <["step" := "ask_dates"]> d in
            Returns ("Great! What dates would you like to book for in " +:+ text
                     +:+ "? Please say your check-in and check-out dates.", d)
          else if bool_decide (step = Some "ask_dates") then
            let d := <["dates" := text]> d in
            let d := <["step" := "ask_room_type"]> d in
            Returns ("Thank you. What type of room would you like? For example, single, double, or suite.", d)
          else if bool_decide (step = Some "ask_room_type") then
            let d := <["room_type" := text]> d in
            let d := <["step" := "confirm"]> d in
            Returns ("Please confirm: you want to book a " +:+ fmt (d !! "room_type")
                     +:+ " room for dates " +:+ fmt (d !! "dates")
                     +:+ " in " +:+ fmt (d !! "location")
                     +:+ ". Is that correct?", d)
          else if bool_decide (step = Some "confirm") then
            if PyStr.contains "yes" (PyStr.lower text) then
              let d := <["step" := "booked"]> d in
              Returns ("Your booking has been confirmed. Thank you for choosing our service.", d)
            else
              Returns ("Let's start over. Which city or hotel are you interested in?",
                       {[ "step" := "ask_location" ]})
          else if bool_decide (step = Some "booked") then
            Returns ("Your booking is already confirmed. Thank you for choosing our service.", d)
          else
            Returns ("I'm sorry, I didn't understand that. Could you please repeat?", d)
    end.

(** ** The handlers' use of [active_calls] *)

(** The handlers are modelled from the point where the request's form has
    been read, its fields being text; reading the form, and a field that is
    not text, are outside the model. *)

(** [d.setdefault(k, v)] on the table: the entry is kept when there is one. *)
Definition setdefault (k : string) (v : dict) (m : calls) : calls :=
  match m !! k with
  | Some _ => m
  | None => <[k := v]> m
  end.

(** [form.get(k, "")] on the request's form fields. *)
Definition form_get (form : dict) (k : string) : string :=
  default "" (form !! k).

(** [incoming_call]: the table after the call-start notification. *)
Definition incoming_call (form : dict) (active_calls : calls) : calls :=
  let call_sid := form_get form "CallSid" in
  if negb (PyStr.is_empty call_sid) then
    setdefault call_sid {[ "step" := "ask_location" ]} active_calls
  else active_calls.

(** What [gather_response] leaves behind: the table, the reply that is
    spoken, and the prompt of the next <Gather> ([None]: hang up). *)
Record gathered : Type := Gathered {
  table : calls;
  reply : string;
  next_prompt : option string
}.

(** Line 134, the lookup [active_calls.get(call_sid, {"step": "ask_location"})]:
    the record found or else the default; [dict.get] leaves the table as it
    is, which the second component records. *)
Definition lookup_state (call_sid : string) (active_calls : calls)
  : dict * calls :=
  (default {[ "step" := "ask_location" ]} (active_calls !! call_sid),
   active_calls).

Definition gather_response (form : dict) (active_calls : calls)
  : result gathered :=
  let recognized_text := form_get form "SpeechResult" in
  let call_sid := form_get form "CallSid" in
  let '(state, active_calls) := lookup_state call_sid active_calls in
  match process_user_input recognized_text (PyDict state) with
  | Raises e => Raises e
  | Returns (reply, updated_state) =>
      let active_calls := <[call_sid := updated_state]> active_calls in
      let step := updated_state !! "step" in
      Returns (Gathered active_calls reply
        (if negb (bool_decide (step = Some "booked")) then
           if bool_decide (step = Some "ask_dates") then
             Some "Please say your check-in and check-out dates."
           else if bool_decide (step = Some "ask_room_type") then
             Some "What type of room would you like? For example, single, double, or suite."
           else if bool_decide (step = Some "confirm") then
             Some "Please confirm your booking by saying yes, or say no to start over."
           else Some "Please continue with your response."
         else None))
  end.

(** A whole dialogue: the utterances of successive turns fed to the engine,
    each turn starting from the state the previous one returned. *)
Fixpoint run (texts : list string) (d : dict) : result dict :=
  match texts with
  | [] => Returns d
  | text :: texts' =>
      match process_user_input text (PyDict d) with
      | Raises e => Raises e
      | Returns (_, d') => run texts' d'
      end
  end.

(** ** Vocabulary of the statements *)

Definition ask_location_prompt : string :=
  "Which city or hotel are you interested in?".
Definition ask_dates_prompt : string :=
  "What dates would you like to book? Please say your check-in and check-out dates.".
Definition ask_room_type_prompt : string :=
  "What type of room would you like? For example, single, double, or suite.".
Definition confirm_prompt : string :=
  "Please confirm your booking. Is that correct?".
Definition provide_input_prompt : string :=
  "Please provide your input.".
Definition already_confirmed : string :=
  "Your booking is already confirmed. Thank you for choosing our service.".
Definition booking_confirmed : string :=
  "Your booking has been confirmed. Thank you for choosing our service.".
Definition start_over : string :=
  "Let's start over. Which city or hotel are you interested in?".
Definition not_understood : string :=
  "I'm sorry, I didn't understand that. Could you please repeat?".

(** [d'] is [d] with the answer [v] stored in field [k] and the step moved
    to [next]; every other field is as it was. *)
Definition stores (k v next : string) (d d' : dict) : Prop :=
  d' !! k = Some v
  /\ d' !! "step" = Some next
  /\ forall j, j <> k -> j <> "step" -> d' !! j = d !! j.

(** The three fields that hold the caller's answers. *)
Definition answer_field (k : string) : Prop :=
  k = "location" \/ k = "dates" \/ k = "room_type".

(** The five steps of the script. *)
Definition known_step (s : string) : bool :=
  String.eqb s "ask_location" || String.eqb s "ask_dates"
  || String.eqb s "ask_room_type" || String.eqb s "confirm"
  || String.eqb s "booked".

(** The order in which the answers are collected: at [ask_location] none of
    the three fields is there, at [ask_dates] the location only, at
    [ask_room_type] the location and the dates only, at [confirm] and
    [booked] all three.  A record at no step of the script is not
    constrained. *)
Definition field_order (d : dict) : bool :=
  let loc := has_key "location" d in
  let dat := has_key "dates" d in
  let room := has_key "room_type" d in
  match d !! "step" with
  | None => true
  | Some s =>
      if String.eqb s "ask_location" then negb loc && negb dat && negb room
      else if String.eqb s "ask_dates" then loc && negb dat && negb room
      else if String.eqb s "ask_room_type" then loc && dat && negb room
      else if String.eqb s "confirm" || String.eqb s "booked" then
        loc && dat && room
      else true
  end.

(** The session store's lookup in the words of the specification
    ([getOrCreate]): the record of the call, or else a fresh record that is
    stored under the call's identifier.  Compared below with what
    [incoming_call] and [lookup_state] do. *)
Definition getOrCreate_spec (callId : string) (store : calls) : dict * calls :=
  match store !! callId with
  | Some d => (d, store)
  | None => (fresh, <[callId := fresh]> store)
  end.

(** ** Dialogues and request sequences *)

(** An utterance that is not taken for silence. *)
Definition nonblank (u : string) : bool :=
  negb (PyStr.is_empty (PyStr.strip u)).

(** The record is at one of the five steps of the script. *)
Definition valid_step (d : dict) : bool :=
  match d !! "step" with
  | Some s => known_step s
  | None => false
  end.

(** How far the script has got: the number of answers a record at that
    step stands for; a record at no step of the script counts for nothing. *)
Definition rank (d : dict) : nat :=
  match d !! "step" with
  | Some s =>
      if String.eqb s "ask_dates" then 1
      else if String.eqb s "ask_room_type" then 2
      else if String.eqb s "confirm" then 3
      else if String.eqb s "booked" then 4
      else 0
  | None => 0
  end.

(** Every answer held by the record is a non-empty text without whitespace
    at either end. *)
Definition answers_clean (d : dict) : Prop :=
  forall k v, answer_field k -> d !! k = Some v ->
    v <> "" /\ PyStr.starts_space v = false /\ PyStr.ends_space v = false.

(** A record as the handlers leave it: at a step of the script, with the
    answers that step stands for, each of them a clean text. *)
Definition well_formed (d : dict) : Prop :=
  valid_step d = true /\ field_order d = true /\ answers_clean d.

(** What one turn does to a record, branch by branch of
    [process_user_input], as a relation between the utterance, the record
    given and the record returned. *)
Inductive turn (u : string) (d : dict) : dict -> Prop :=
| turn_silence :
    PyStr.strip u = "" -> turn u d d
| turn_init :
    PyStr.strip u <> "" -> d !! "step" = None -> turn u d fresh
| turn_location :
    PyStr.strip u <> "" -> d !! "step" = Some "ask_location" ->
    turn u d (<["step" := "ask_dates"]> (<["location" := PyStr.strip u]> d))
| turn_dates :
    PyStr.strip u <> "" -> d !! "step" = Some "ask_dates" ->
    turn u d (<["step" := "ask_room_type"]> (<["dates" := PyStr.strip u]> d))
| turn_room_type :
    PyStr.strip u <> "" -> d !! "step" = Some "ask_room_type" ->
    turn u d (<["step" := "confirm"]> (<["room_type" := PyStr.strip u]> d))
| turn_yes :
    PyStr.strip u <> "" -> d !! "step" = Some "confirm" ->
    PyStr.contains "yes" (PyStr.lower (PyStr.strip u)) = true ->
    turn u d (<["step" := "booked"]> d)
| turn_no :
    PyStr.strip u <> "" -> d !! "step" = Some "confirm" ->
    PyStr.contains "yes" (PyStr.lower (PyStr.strip u)) = false ->
    turn u d fresh
| turn_booked :
    PyStr.strip u <> "" -> d !! "step" = Some "booked" -> turn u d d
| turn_unknown (s : string) :
    PyStr.strip u <> "" -> d !! "step" = Some s -> known_step s = false ->
    turn u d d.

(** The requests the telephony provider sends, in the order the server
    handles them: a call-start notification to [/incoming-call] or a speech
    result to [/gather-response], each with its form fields. *)
Inductive request : Type :=
| CallStart (form : dict)
| SpeechResult (form : dict).

(** The call a request is about: [form.get("CallSid", "")]. *)
Definition request_sid (req : request) : string :=
  match req with
  | CallStart form => form_get form "CallSid"
  | SpeechResult form => form_get form "CallSid"
  end.

(** The table after a sequence of requests.  Between reading and writing
    [active_calls] a handler does not await anything, so the handlers of
    concurrent requests touch the table one after the other. *)
Fixpoint serve (reqs : list request) (active_calls : calls) : result calls :=
  match reqs with
  | [] => Returns active_calls
  | CallStart form :: reqs' => serve reqs' (incoming_call form active_calls)
  | SpeechResult form :: reqs' =>
      match gather_response form active_calls with
      | Raises e => Raises e
      | Returns g => serve reqs' (table g)
      end
  end.

(** ** The model on the specification's examples *)

Example strip_padded : PyStr.strip "  Paris  " = "Paris".
Proof. reflexivity. Qed.

Example strip_inner : PyStr.strip " June 1 to June 5 " = "June 1 to June 5".
Proof. reflexivity. Qed.

Example lower_yes : PyStr.lower "YES." = "yes.".
Proof. reflexivity. Qed.

Example contains_yes : PyStr.contains "yes" (PyStr.lower "Yesterday") = true.
Proof. reflexivity. Qed.

Example contains_no : PyStr.contains "yes" (PyStr.lower "no, ye s") = false.
Proof. reflexivity. Qed.

Example decline_and_restart :
  process_user_input "no"
    (PyDict (<["step" := "confirm"]>
             (<["room_type" := "double"]>
              (<["dates" := "X"]> (<["location" := "Paris"]> ∅)))))
  = Returns (start_over, fresh).
Proof. vm_compute. reflexivity. Qed.

Example confirm_upper_case :
  process_user_input "YES." (PyDict {[ "step" := "confirm" ]})
  = Returns (booking_confirmed, {[ "step" := "booked" ]}).
Proof. vm_compute. reflexivity. Qed.

Example confirm_inside_sentence :
  process_user_input "yesterday was fine, yes" (PyDict {[ "step" := "confirm" ]})
  = Returns (booking_confirmed, {[ "step" := "booked" ]}).
Proof. vm_compute. reflexivity. Qed.

Example first_speech_without_call_start :
  gather_response {[ "CallSid" := "CA1"; "SpeechResult" := "Paris" ]} ∅
  = Returns (Gathered
               {[ "CA1" := <["step" := "ask_dates"]> (<["location" := "Paris"]> fresh) ]}
               "Great! What dates would you like to book for in Paris? Please say your check-in and check-out dates."
               (Some "Please say your check-in and check-out dates.")).
Proof. vm_compute. reflexivity. Qed.

Example happy_path :
  run ["Paris"; "Paris"; "June 1 to June 5"; "suite"; "yes please"] ∅
  = Returns (<["step" := "booked"]>
             (<["room_type" := "suite"]>
              (<["dates" := "June 1 to June 5"]>
               (<["location" := "Paris"]> fresh)))).
Proof. vm_compute. reflexivity. Qed.

(** ** Facts about the string operations *)

Module PyStrFacts.
Import PyStr.

Lemma is_empty_true (s : string) : is_empty s = true <-> s = "".
Proof. destruct s; simpl; split; congruence. Qed.

Lemma is_empty_false (s : string) : is_empty s = false <-> s <> "".
Proof. destruct s; simpl; split; congruence. Qed.

(** Lower-casing never turns a character into whitespace or whitespace
    into something else. *)
Lemma isspace_lower_char (c : ascii) : isspace (lower_char c) = isspace c.
Proof. destruct c as [[] [] [] [] [] [] [] []]; reflexivity. Qed.

(** *** [strip] is idempotent and leaves no whitespace at either end *)

Lemma lstrip_fixed (s : string) : starts_space s = false -> lstrip s = s.
Proof. destruct s as [|c s]; simpl; [reflexivity|]. now intros ->. Qed.

Lemma starts_space_lstrip (s : string) : starts_space (lstrip s) = false.
Proof.
  induction s as [|c s IH]; simpl; [reflexivity|].
  destruct (isspace c) eqn:Hc; [exact IH | simpl; exact Hc].
Qed.

Lemma starts_space_rstrip (s : string) :
  starts_space s = false -> starts_space (rstrip s) = false.
Proof.
  destruct s as [|c s]; simpl; [reflexivity|].
  intros Hc. rewrite Hc. simpl. exact Hc.
Qed.

Lemma rstrip_idem (s : string) : rstrip (rstrip s) = rstrip s.
Proof.
  induction s as [|c s IH]; simpl; [reflexivity|].
  destruct (isspace c && is_empty (rstrip s)) eqn:Hb; [reflexivity|].
  simpl. rewrite IH, Hb. reflexivity.
Qed.

Lemma ends_space_rstrip (s : string) : ends_space (rstrip s) = false.
Proof.
  induction s as [|c s IH]; simpl; [reflexivity|].
  destruct (isspace c && is_empty (rstrip s)) eqn:Hb; [reflexivity|].
  simpl. destruct (rstrip s) as [|c' r] eqn:Hr.
  - simpl in Hb. now rewrite andb_true_r in Hb.
  - exact IH.
Qed.

Lemma strip_idem (s : string) : strip (strip s) = strip s.
Proof.
  unfold strip.
  rewrite (lstrip_fixed (rstrip (lstrip s))).
  - apply rstrip_idem.
  - apply starts_space_rstrip, starts_space_lstrip.
Qed.

Lemma starts_space_strip (s : string) : starts_space (strip s) = false.
Proof. apply starts_space_rstrip, starts_space_lstrip. Qed.

Lemma ends_space_strip (s : string) : ends_space (strip s) = false.
Proof. apply ends_space_rstrip. Qed.

(** A string that is already trimmed is returned as it is. *)
Lemma rstrip_fixed (s : string) : ends_space s = false -> rstrip s = s.
Proof.
  induction s as [|c s IH]; simpl; [reflexivity|].
  destruct s as [|c' s'].
  - simpl. now intros ->.
  - intros He. rewrite (IH He). simpl. now rewrite andb_false_r.
Qed.

Lemma strip_fixed (s : string) :
  starts_space s = false -> ends_space s = false -> strip s = s.
Proof.
  intros Hs He. unfold strip. rewrite (lstrip_fixed s Hs).
  now apply rstrip_fixed.
Qed.

(** *** Searching a word without whitespace ignores the whitespace that
    [strip] removes *)

Section Needle.
Variable needle : string.
Hypothesis needle_no_space : no_space needle = true.
Hypothesis needle_not_empty : needle <> "".

Lemma prefix_space_head (c : ascii) (s : string) :
  isspace c = true -> String.prefix needle (String (lower_char c) s) = false.
Proof using needle_no_space needle_not_empty.
  intros Hc. destruct needle as [|a n] eqn:Hn; [congruence|].
  simpl in *. destruct (ascii_dec a (lower_char c)) as [->|]; [|reflexivity].
  rewrite isspace_lower_char, Hc in needle_no_space. discriminate.
Qed.

Lemma contains_lower_lstrip (s : string) :
  contains needle (lower (lstrip s)) = contains needle (lower s).
Proof using needle_no_space needle_not_empty.
  induction s as [|c s IH]; [reflexivity|].
  cbn [lstrip]. destruct (isspace c) eqn:Hc; [|reflexivity].
  rewrite IH. cbn [lower contains].
  now rewrite (prefix_space_head c (lower s) Hc).
Qed.
End Needle.

Lemma contains_empty_hay (n : string) : n <> "" -> contains n "" = false.
Proof. destruct n; [congruence | reflexivity]. Qed.

Lemma prefix_lower_rstrip (n s : string) :
  no_space n = true ->
  String.prefix n (lower (rstrip s)) = String.prefix n (lower s).
Proof.
  revert n. induction s as [|c s IH]; intros n Hn; [reflexivity|].
  cbn [rstrip]. destruct n as [|a n]; [now destruct (_ && _)|].
  simpl in Hn. apply andb_true_iff in Hn as [Ha Hn].
  destruct (isspace c && is_empty (rstrip s)) eqn:Hb.
  - apply andb_true_iff in Hb as [Hc _]. cbn [lower String.prefix].
    destruct (ascii_dec a (lower_char c)) as [->|]; [|reflexivity].
    rewrite isspace_lower_char, Hc in Ha. discriminate.
  - cbn [lower String.prefix]. now rewrite (IH n Hn).
Qed.

Lemma contains_lower_rstrip (n s : string) :
  no_space n = true -> n <> "" ->
  contains n (lower (rstrip s)) = contains n (lower s).
Proof.
  intros Hn Hne. induction s as [|c s IH]; [reflexivity|].
  cbn [rstrip]. destruct (isspace c && is_empty (rstrip s)) eqn:Hb.
  - apply andb_true_iff in Hb as [Hc Hr]. apply is_empty_true in Hr.
    rewrite Hr in IH. change (lower "") with "" in *.
    rewrite (contains_empty_hay n Hne) in *.
    cbn [lower]. change (contains n (String (lower_char c) (lower s)))
      with (String.prefix n (String (lower_char c) (lower s))
            || contains n (lower s)).
    now rewrite <- IH, (prefix_space_head n Hn Hne c (lower s) Hc).
  - pose proof (prefix_lower_rstrip n (String c s) Hn) as Hp.
    cbn [rstrip] in Hp. rewrite Hb in Hp.
    cbn [lower contains] in *. now rewrite Hp, IH.
Qed.

(** The test of the [confirm] step sees the same thing on the raw and on
    the trimmed utterance. *)
Lemma contains_lower_strip (n s : string) :
  no_space n = true -> n <> "" ->
  contains n (lower (strip s)) = contains n (lower s).
Proof.
  intros Hn Hne. unfold strip.
  rewrite (contains_lower_rstrip n (lstrip s) Hn Hne).
  now apply contains_lower_lstrip.
Qed.

(** *** [contains] finds exactly the occurrences *)

Lemma prefix_app (n s : string) : String.prefix n (n +:+ s) = true.
Proof.
  induction n as [|a n IH]; simpl; [now destruct s|].
  destruct (ascii_dec a a); [exact IH | congruence].
Qed.

Lemma contains_prefix (n h : string) :
  String.prefix n h = true -> contains n h = true.
Proof. intros H. destruct h; cbn [contains]; now rewrite H. Qed.

Lemma contains_app (n a b : string) : contains n (a +:+ n +:+ b) = true.
Proof.
  induction a as [|c a IH].
  - change ("" +:+ n +:+ b) with (n +:+ b). apply contains_prefix, prefix_app.
  - simpl. rewrite IH. apply orb_true_r.
Qed.

Lemma append_assoc (a b c : string) : (a +:+ b) +:+ c = a +:+ b +:+ c.
Proof.
  induction a as [|x a IH]; [reflexivity|].
  change (String x ((a +:+ b) +:+ c) = String x (a +:+ b +:+ c)).
  now rewrite IH.
Qed.

(** A text is found in every string built around it. *)
Lemma contains_app2 (n a1 a2 a3 b : string) :
  contains n (a1 +:+ a2 +:+ a3 +:+ n +:+ b) = true.
Proof.
  rewrite <- (append_assoc a2 a3), <- (append_assoc a1 (a2 +:+ a3)).
  apply contains_app.
Qed.

Lemma contains_app3 (n a1 a2 a3 a4 a5 b : string) :
  contains n (a1 +:+ a2 +:+ a3 +:+ a4 +:+ a5 +:+ n +:+ b) = true.
Proof.
  rewrite <- (append_assoc a4 a5), <- (append_assoc a3 (a4 +:+ a5)).
  apply contains_app2.
Qed.

End PyStrFacts.

(** ** The branches of the engine *)

Module Engine.
Import PyStr PyStrFacts.

Lemma guard_step (d : dict) (s : string) :
  d !! "step" = Some s ->
  py_not (PyDict d) || negb (has_key "step" d) = false.
Proof.
  intros Hs. unfold py_not, has_key.
  rewrite bool_decide_eq_false_2.
  - rewrite bool_decide_eq_true_2; [reflexivity | by rewrite Hs].
  - intros ->. by rewrite lookup_empty in Hs.
Qed.

Lemma guard_no_step (d : dict) :
  d !! "step" = None ->
  py_not (PyDict d) || negb (has_key "step" d) = true.
Proof.
  intros Hs. unfold has_key. rewrite (bool_decide_eq_false_2 (is_Some _)).
  - apply orb_true_r.
  - rewrite Hs. by intros [? ?].
Qed.

(** Entering the part of the function after the two early returns. *)
Ltac enter_dispatch Hne Hstep :=
  unfold process_user_input; cbv zeta;
  rewrite (proj2 (is_empty_false _) Hne);
  rewrite (guard_step _ _ Hstep), Hstep.

Ltac pick_branch :=
  repeat (case_bool_decide; simplify_eq); try reflexivity.

(** Silence: the record comes back as it was given. *)
Lemma process_blank (u : string) (d : dict) :
  strip u = "" ->
  exists r, process_user_input u (PyDict d) = Returns (r, d) /\ r <> "".
Proof.
  intros Hu. unfold process_user_input; cbv zeta. rewrite Hu.
  cbn [is_empty].
  repeat match goal with
         | |- context [if ?b then _ else _] => destruct b
         end; eexists; (split; [reflexivity | discriminate]).
Qed.

Lemma process_no_step (u : string) (d : dict) :
  strip u <> "" -> d !! "step" = None ->
  process_user_input u (PyDict d) = Returns (ask_location_prompt, fresh).
Proof.
  intros Hne Hs. unfold process_user_input; cbv zeta.
  rewrite (proj2 (is_empty_false _) Hne).
  now rewrite (guard_no_step _ Hs).
Qed.

Lemma process_none (u : string) :
  strip u <> "" ->
  process_user_input u PyNone = Returns (ask_location_prompt, fresh).
Proof.
  intros Hne. unfold process_user_input; cbv zeta.
  now rewrite (proj2 (is_empty_false _) Hne).
Qed.

Lemma process_ask_location (u : string) (d : dict) :
  strip u <> "" -> d !! "step" = Some "ask_location" ->
  process_user_input u (PyDict d)
  = Returns ("Great! What dates would you like to book for in " +:+ strip u
             +:+ "? Please say your check-in and check-out dates.",
             <["step" := "ask_dates"]> (<["location" := strip u]> d)).
Proof. intros Hne Hs. enter_dispatch Hne Hs. pick_branch. Qed.

Lemma process_ask_dates (u : string) (d : dict) :
  strip u <> "" -> d !! "step" = Some "ask_dates" ->
  process_user_input u (PyDict d)
  = Returns ("Thank you. What type of room would you like? For example, single, double, or suite.",
             <["step" := "ask_room_type"]> (<["dates" := strip u]> d)).
Proof. intros Hne Hs. enter_dispatch Hne Hs. pick_branch. Qed.

Lemma process_ask_room_type (u : string) (d : dict) :
  strip u <> "" -> d !! "step" = Some "ask_room_type" ->
  process_user_input u (PyDict d)
  = Returns ("Please confirm: you want to book a " +:+ strip u
             +:+ " room for dates " +:+ fmt (d !! "dates")
             +:+ " in " +:+ fmt (d !! "location") +:+ ". Is that correct?",
             <["step" := "confirm"]> (<["room_type" := strip u]> d)).
Proof.
  intros Hne Hs. enter_dispatch Hne Hs. pick_branch.
  rewrite !(lookup_insert_ne _ "step") by discriminate.
  rewrite lookup_insert_eq, !(lookup_insert_ne _ "room_type") by discriminate.
  reflexivity.
Qed.

Lemma process_confirm_yes (u : string) (d : dict) :
  strip u <> "" -> d !! "step" = Some "confirm" ->
  contains "yes" (lower (strip u)) = true ->
  process_user_input u (PyDict d)
  = Returns (booking_confirmed, <["step" := "booked"]> d).
Proof. intros Hne Hs Hy. enter_dispatch Hne Hs. pick_branch. now rewrite Hy. Qed.

Lemma process_confirm_no (u : string) (d : dict) :
  strip u <> "" -> d !! "step" = Some "confirm" ->
  contains "yes" (lower (strip u)) = false ->
  process_user_input u (PyDict d) = Returns (start_over, fresh).
Proof. intros Hne Hs Hy. enter_dispatch Hne Hs. pick_branch. now rewrite Hy. Qed.

Lemma process_booked (u : string) (d : dict) :
  strip u <> "" -> d !! "step" = Some "booked" ->
  process_user_input u (PyDict d) = Returns (already_confirmed, d).
Proof. intros Hne Hs. enter_dispatch Hne Hs. pick_branch. Qed.

Lemma process_unknown (u : string) (d : dict) (s : string) :
  strip u <> "" -> d !! "step" = Some s -> known_step s = false ->
  process_user_input u (PyDict d) = Returns (not_understood, d).
Proof.
  intros Hne Hs Hk. enter_dispatch Hne Hs. pick_branch; discriminate.
Qed.

End Engine.

(** ** Which inputs get a reply *)

Import PyStr.

(** The empty utterance with an absent state ([None]): the function reads
    [state.get] first and raises [AttributeError]; nothing is returned. *)
Lemma silent_turn_on_None_raises :
  process_user_input "" PyNone = Raises AttributeError
  /\ ~ (exists reply d', process_user_input "" PyNone = Returns (reply, d')).
Proof.
  split; [reflexivity|]. intros (reply & d' & H). discriminate H.
Qed.

(** On a dict the function always returns, with a prompt that is not
    empty. *)
Lemma process_user_input_returns_prompt (text : string) (d : dict) :
  exists reply d',
    process_user_input text (PyDict d) = Returns (reply, d') /\ reply <> "".
Proof.
  destruct (string_dec (strip text) "") as [Hu|Hu].
  - destruct (Engine.process_blank text d Hu) as (r & Hr & Hne). eauto.
  - unfold process_user_input; cbv zeta.
    rewrite (proj2 (PyStrFacts.is_empty_false _) Hu).
    repeat match goal with
           | |- context [if ?b then _ else _] => destruct b
           end;
      do 2 eexists; (split; [reflexivity|]);
      unfold fmt; cbn [String.append]; discriminate.
Qed.

Lemma process_user_input_returns (text : string) (d : dict) :
  exists reply d', process_user_input text (PyDict d) = Returns (reply, d').
Proof.
  destruct (process_user_input_returns_prompt text d) as (r & d' & H & _).
  eauto.
Qed.

(** Where the function returns: on every dict (empty, without a step, with
    any string as step) whatever the utterance, and on an absent state
    ([None]) when the trimmed utterance is not empty.  The prompt returned
    is not empty. *)
Theorem process_user_input_total (text : string) (state : pyvalue) :
  (state = PyNone -> strip text <> "") ->
  exists reply d',
    process_user_input text state = Returns (reply, d') /\ reply <> "".
Proof.
  intros Hnone. destruct state as [|d].
  - rewrite (Engine.process_none text (Hnone eq_refl)).
    do 2 eexists. split; [reflexivity | discriminate].
  - apply process_user_input_returns_prompt.
Qed.

Lemma process_user_input_total_witness :
  exists reply d',
    process_user_input "Paris" PyNone = Returns (reply, d') /\ reply <> "".
Proof.
  apply (process_user_input_total "Paris" PyNone).
  intros _. vm_compute. discriminate.
Defined.



(** ** Silence *)

(** At a step that is none of the four asked about, silence is answered by
    the request for input; the record is untouched. *)
Lemma silence_reprompts_aux (u : string) (d : dict) :
  strip u = "" ->
  exists r,
    process_user_input u (PyDict d) = Returns (r, d)
    /\ (forall s, d !! "step" = Some s ->
          s <> "ask_location" -> s <> "ask_dates" ->
          s <> "ask_room_type" -> s <> "confirm" ->
          r = provide_input_prompt).
Proof.
  intros Hu. unfold process_user_input; cbv zeta. rewrite Hu. cbn [is_empty].
  destruct (d !! "step") as [s|]; cbn [default from_option id].
  - destruct (String.eqb_spec s "ask_location") as [->|H1];
      [|destruct (String.eqb_spec s "ask_dates") as [->|H2];
        [|destruct (String.eqb_spec s "ask_room_type") as [->|H3];
          [|destruct (String.eqb_spec s "confirm") as [->|H4]]]];
      eexists; (split; [reflexivity|]); intros; simplify_eq; reflexivity.
  - eexists. split; [reflexivity|]. intros; simplify_eq.
Qed.

(** C2, as stated, fails: with a step that is not one of the script's, a
    silent turn is answered by "Please provide your input.", not by the
    question for the location. *)
Lemma silent_bogus_step_prompt :
  process_user_input "" (PyDict {[ "step" := "bogus" ]})
  = Returns (provide_input_prompt, {[ "step" := "bogus" ]})
  /\ process_user_input "" (PyDict {[ "step" := "bogus" ]})
     <> Returns (ask_location_prompt, {[ "step" := "bogus" ]}).
Proof.
  assert (H : process_user_input "" (PyDict {[ "step" := "bogus" ]})
              = Returns (provide_input_prompt, {[ "step" := "bogus" ]}))
    by reflexivity.
  split; [exact H|]. rewrite H. intros E. inversion E.
Qed.

(** C2, amended: an utterance that is empty once trimmed leaves every state
    dict exactly as it was and repeats the question of the current step:
    the location question when the step is [ask_location] or missing, the
    dates, room-type and confirmation questions at their steps, and "Please
    provide your input." at any other step ([booked] included). *)
Theorem silence_reprompts (u : string) (d : dict) :
  strip u = "" ->
  exists r,
    process_user_input u (PyDict d) = Returns (r, d)
    /\ (d !! "step" = None \/ d !! "step" = Some "ask_location" ->
        r = ask_location_prompt)
    /\ (d !! "step" = Some "ask_dates" -> r = ask_dates_prompt)
    /\ (d !! "step" = Some "ask_room_type" -> r = ask_room_type_prompt)
    /\ (d !! "step" = Some "confirm" -> r = confirm_prompt)
    /\ (forall s, d !! "step" = Some s ->
          s <> "ask_location" -> s <> "ask_dates" ->
          s <> "ask_room_type" -> s <> "confirm" ->
          r = provide_input_prompt).
Proof.
  intros Hu. unfold process_user_input; cbv zeta. rewrite Hu. cbn [is_empty].
  destruct (d !! "step") as [s|]; cbn [default from_option id].
  - destruct (String.eqb_spec s "ask_location") as [->|H1];
      [|destruct (String.eqb_spec s "ask_dates") as [->|H2];
        [|destruct (String.eqb_spec s "ask_room_type") as [->|H3];
          [|destruct (String.eqb_spec s "confirm") as [->|H4]]]];
      eexists; (split; [reflexivity|]);
      repeat split; intros; simplify_eq; try reflexivity;
      try match goal with H : _ \/ _ |- _ => destruct H end;
      simplify_eq; try reflexivity; congruence.
  - eexists. split; [reflexivity|].
    repeat split; intros; simplify_eq; reflexivity.
Qed.

Lemma silence_reprompts_witness :
  process_user_input "  " (PyDict {[ "step" := "booked" ]})
  = Returns (provide_input_prompt, {[ "step" := "booked" ]}).
Proof.
  destruct (silence_reprompts "  " {[ "step" := "booked" ]} eq_refl)
    as (r & Hr & _ & _ & _ & _ & Hother).
  rewrite Hr. f_equal. f_equal.
  apply (Hother "booked"); [reflexivity | discriminate ..].
Defined.

(** ** The happy path *)

Lemma stores_insert (k v next : string) (d : dict) :
  k <> "step" -> stores k v next d (<["step" := next]> (<[k := v]> d)).
Proof.
  intros Hk. unfold stores. split; [|split].
  - rewrite lookup_insert_ne by congruence. apply lookup_insert_eq.
  - apply lookup_insert_eq.
  - intros j Hj Hs. rewrite !lookup_insert_ne by congruence. reflexivity.
Qed.

(** C3, as stated, fails: the answer is not stored verbatim but trimmed,
    and an utterance of whitespace only is not empty and yet stores nothing
    and advances nothing. *)
Lemma padded_answer_not_verbatim :
  process_user_input " Paris" (PyDict fresh)
  = Returns ("Great! What dates would you like to book for in Paris? Please say your check-in and check-out dates.",
             <["step" := "ask_dates"]> (<["location" := "Paris"]> fresh))
  /\ (forall r d', process_user_input " Paris" (PyDict fresh) = Returns (r, d') ->
      d' !! "location" <> Some " Paris")
  /\ process_user_input " " (PyDict fresh) = Returns (ask_location_prompt, fresh).
Proof.
  assert (H : process_user_input " Paris" (PyDict fresh)
              = Returns ("Great! What dates would you like to book for in Paris? Please say your check-in and check-out dates.",
                         <["step" := "ask_dates"]> (<["location" := "Paris"]> fresh)))
    by (vm_compute; reflexivity).
  split; [exact H|]. split; [|vm_compute; reflexivity].
  intros r d' E. rewrite H in E. inversion E; subst.
  vm_compute. discriminate.
Qed.

(** C3, amended: for every utterance whose trimmed text [t] is not empty,
    from a state at [ask_location] the transition stores [t] in [location]
    and moves to [ask_dates], the reply naming [t]; from [ask_dates] it
    stores [t] in [dates] and moves to [ask_room_type]; from
    [ask_room_type] it stores [t] in [room_type], moves to [confirm], and the
    reply restates the room type, the dates and the location collected; at
    each of these steps every other field is left as it was. *)
Theorem happy_path_progression (u : string) (d : dict) :
  strip u <> "" ->
  (d !! "step" = Some "ask_location" ->
   exists r d',
     process_user_input u (PyDict d) = Returns (r, d')
     /\ stores "location" (strip u) "ask_dates" d d'
     /\ contains (strip u) r = true)
  /\ (d !! "step" = Some "ask_dates" ->
      exists r d',
        process_user_input u (PyDict d) = Returns (r, d')
        /\ stores "dates" (strip u) "ask_room_type" d d')
  /\ (d !! "step" = Some "ask_room_type" ->
      exists r d',
        process_user_input u (PyDict d) = Returns (r, d')
        /\ stores "room_type" (strip u) "confirm" d d'
        /\ contains (strip u) r = true
        /\ (forall v, d !! "dates" = Some v -> contains v r = true)
        /\ (forall v, d !! "location" = Some v -> contains v r = true)).
Proof.
  intros Hne. split; [|split]; intros Hs.
  - rewrite (Engine.process_ask_location u d Hne Hs). do 2 eexists.
    split; [reflexivity|]. split; [now apply stores_insert|].
    apply PyStrFacts.contains_app.
  - rewrite (Engine.process_ask_dates u d Hne Hs). do 2 eexists.
    split; [reflexivity|]. now apply stores_insert.
  - rewrite (Engine.process_ask_room_type u d Hne Hs). do 2 eexists.
    split; [reflexivity|]. split; [now apply stores_insert|].
    split; [apply PyStrFacts.contains_app|]. split; intros v Hv; rewrite Hv.
    + apply PyStrFacts.contains_app2.
    + apply PyStrFacts.contains_app3.
Qed.

(** An answer that comes without whitespace around it is stored as it is. *)
Lemma trimmed_answer_verbatim (u : string) (d : dict) :
  u <> "" -> starts_space u = false -> ends_space u = false ->
  d !! "step" = Some "ask_location" ->
  exists r d',
    process_user_input u (PyDict d) = Returns (r, d')
    /\ stores "location" u "ask_dates" d d'.
Proof.
  intros Hne Hs He Hstep.
  pose proof (PyStrFacts.strip_fixed u Hs He) as Hfix.
  assert (Hne' : strip u <> "") by congruence.
  rewrite (Engine.process_ask_location u d Hne' Hstep), Hfix.
  do 2 eexists. split; [reflexivity|]. now apply stores_insert.
Qed.

Lemma happy_path_progression_witness :
  exists r d',
    process_user_input "suite"
      (PyDict (<["step" := "ask_room_type"]>
               (<["dates" := "June 1 to June 5"]>
                (<["location" := "Paris"]> fresh))))
    = Returns (r, d')
    /\ d' !! "room_type" = Some "suite"
    /\ d' !! "step" = Some "confirm"
    /\ contains "June 1 to June 5" r = true
    /\ contains "Paris" r = true.
Proof.
  assert (Hne : strip "suite" <> "") by (vm_compute; discriminate).
  destruct (happy_path_progression "suite"
              (<["step" := "ask_room_type"]>
               (<["dates" := "June 1 to June 5"]>
                (<["location" := "Paris"]> fresh))) Hne)
    as (_ & _ & Hroom).
  destruct (Hroom eq_refl) as (r & d' & E & (Hk & Hstep & _) & _ & Hd & Hl).
  exists r, d'. repeat split; [exact E | exact Hk | exact Hstep | |].
  - apply Hd. reflexivity.
  - apply Hl. reflexivity.
Defined.

(** ** The confirmation *)

Lemma yes_no_space : no_space "yes" = true /\ "yes" <> "".
Proof. split; [reflexivity | discriminate]. Qed.

(** C4, as stated, fails: an utterance of whitespace only is not empty and
    does not contain "yes", yet at [confirm] it is taken for silence: the
    state, answers included, stays as it is and the confirmation question is
    repeated; nothing restarts. *)
Lemma whitespace_at_confirm_no_restart :
  let d : dict := <["step" := "confirm"]>
             (<["room_type" := "double"]>
              (<["dates" := "X"]> (<["location" := "Paris"]> ∅))) in
  " " <> ""
  /\ contains "yes" (lower " ") = false
  /\ process_user_input " " (PyDict d) = Returns (confirm_prompt, d)
  /\ process_user_input " " (PyDict d) <> Returns (start_over, fresh).
Proof.
  intros d.
  assert (H : process_user_input " " (PyDict d) = Returns (confirm_prompt, d))
    by (vm_compute; reflexivity).
  split; [discriminate|]. split; [reflexivity|]. split; [exact H|].
  rewrite H. intros E. inversion E.
Qed.

(** C4, amended: for every utterance [u] whose trimmed text is not empty,
    processed in a state at [confirm], the next step is [booked] if and only
    if the lower-cased [u] contains "yes" somewhere; when it does not, the
    next state is exactly the fresh record and the reply announces the
    restart and asks for the location again. *)
Theorem confirm_decision (u : string) (d : dict) :
  strip u <> "" ->
  d !! "step" = Some "confirm" ->
  exists r d',
    process_user_input u (PyDict d) = Returns (r, d')
    /\ (d' !! "step" = Some "booked" <-> contains "yes" (lower u) = true)
    /\ (contains "yes" (lower u) = true ->
        r = booking_confirmed /\ d' = <["step" := "booked"]> d)
    /\ (contains "yes" (lower u) = false -> r = start_over /\ d' = fresh).
Proof.
  intros Hne Hs.
  destruct yes_no_space as [Hy1 Hy2].
  pose proof (PyStrFacts.contains_lower_strip "yes" u Hy1 Hy2) as Hraw.
  destruct (contains "yes" (lower u)) eqn:Hyes.
  - rewrite (Engine.process_confirm_yes u d Hne Hs Hraw). do 2 eexists.
    split; [reflexivity|]. split; [|split]; [| auto | discriminate].
    split; [reflexivity | intros _; apply lookup_insert_eq].
  - rewrite (Engine.process_confirm_no u d Hne Hs Hraw). do 2 eexists.
    split; [reflexivity|]. split; [|split]; [| discriminate | auto].
    split; [|discriminate]. vm_compute. discriminate.
Qed.

Lemma confirm_decision_witness :
  exists r d',
    process_user_input "YES." (PyDict (<["location" := "Paris"]> {[ "step" := "confirm" ]}))
    = Returns (r, d')
    /\ d' !! "step" = Some "booked".
Proof.
  assert (Hne : strip "YES." <> "") by (vm_compute; discriminate).
  assert (Hs : (<["location" := "Paris"]> {[ "step" := "confirm" ]} : dict)
               !! "step" = Some "confirm") by reflexivity.
  destruct (confirm_decision "YES." _ Hne Hs) as (r & d' & E & Hiff & _).
  exists r, d'. split; [exact E|]. apply Hiff. reflexivity.
Defined.

(** ** A state without a step *)

(** C5, as stated, fails: on an utterance of whitespace only, which is not
    empty, the empty record comes back empty; no step is initialised. *)
Lemma whitespace_on_empty_record :
  " " <> ""
  /\ process_user_input " " (PyDict ∅) = Returns (ask_location_prompt, ∅)
  /\ process_user_input " " (PyDict ∅) <> Returns (ask_location_prompt, fresh).
Proof.
  assert (H : process_user_input " " (PyDict ∅) = Returns (ask_location_prompt, ∅))
    by reflexivity.
  split; [discriminate|]. split; [exact H|].
  rewrite H. intros E. inversion E.
Qed.

(** C5, amended: for every utterance whose trimmed text is not empty and
    every state dict without a [step] key (the empty one included), the
    transition returns the location question and the state
    [{step: ask_location}]; the utterance is not taken as the location: the
    returned record has no [location]. *)
Theorem uninitialized_precedence (u : string) (d : dict) :
  strip u <> "" ->
  d !! "step" = None ->
  exists d',
    process_user_input u (PyDict d) = Returns (ask_location_prompt, d')
    /\ d' = {[ "step" := "ask_location" ]}
    /\ d' !! "location" = None.
Proof.
  intros Hne Hs. exists fresh.
  split; [exact (Engine.process_no_step u d Hne Hs)|].
  split; reflexivity.
Qed.

Lemma uninitialized_precedence_witness :
  exists d',
    process_user_input "Paris" (PyDict ∅) = Returns (ask_location_prompt, d')
    /\ d' = {[ "step" := "ask_location" ]}
    /\ d' !! "location" = None.
Proof.
  apply (uninitialized_precedence "Paris" ∅).
  - vm_compute. discriminate.
  - reflexivity.
Defined.

(** ** The terminal step *)

Lemma process_at_booked (u : string) (d : dict) :
  d !! "step" = Some "booked" ->
  exists r,
    process_user_input u (PyDict d) = Returns (r, d)
    /\ (strip u <> "" -> r = already_confirmed)
    /\ (strip u = "" -> r = provide_input_prompt).
Proof.
  intros Hs. destruct (string_dec (strip u) "") as [Hu|Hu].
  - destruct (silence_reprompts_aux u d Hu) as (r & Hr & Hother).
    exists r. split; [exact Hr|]. split; [congruence|]. intros _.
    apply (Hother "booked" Hs); discriminate.
  - exists already_confirmed.
    split; [exact (Engine.process_booked u d Hu Hs)|].
    split; [reflexivity | congruence].
Qed.

Lemma run_at_booked (texts : list string) (d : dict) :
  d !! "step" = Some "booked" -> run texts d = Returns d.
Proof.
  intros Hs. induction texts as [|u texts IH]; [reflexivity|].
  cbn [run]. destruct (process_at_booked u d Hs) as (r & -> & _).
  exact IH.
Qed.

(** C6, as stated, fails: the empty utterance at [booked] is answered by
    "Please provide your input.", not by the 'already confirmed' message. *)
Lemma silence_at_booked :
  process_user_input "" (PyDict {[ "step" := "booked" ]})
  = Returns (provide_input_prompt, {[ "step" := "booked" ]})
  /\ process_user_input "" (PyDict {[ "step" := "booked" ]})
     <> Returns (already_confirmed, {[ "step" := "booked" ]}).
Proof.
  assert (H : process_user_input "" (PyDict {[ "step" := "booked" ]})
              = Returns (provide_input_prompt, {[ "step" := "booked" ]}))
    by reflexivity.
  split; [exact H|]. rewrite H. intros E. inversion E.
Qed.

(** C6, amended: in a state at [booked] ([{step: booked}] in particular)
    every utterance, the empty one included, gives the state back
    unchanged, so that no sequence of further turns changes the record; the
    reply is the 'already confirmed' message when the trimmed utterance is
    not empty, and "Please provide your input." when it is. *)
Theorem terminal_idempotence (u : string) (d : dict) :
  d !! "step" = Some "booked" ->
  (exists r,
     process_user_input u (PyDict d) = Returns (r, d)
     /\ (strip u <> "" -> r = already_confirmed)
     /\ (strip u = "" -> r = provide_input_prompt))
  /\ (forall texts, run texts d = Returns d).
Proof.
  intros Hs. split; [now apply process_at_booked|].
  intros texts. now apply run_at_booked.
Qed.

Lemma terminal_idempotence_witness :
  process_user_input "thanks" (PyDict {[ "step" := "booked" ]})
  = Returns (already_confirmed, {[ "step" := "booked" ]})
  /\ run ["thanks"; ""; "yes"] {[ "step" := "booked" ]}
     = Returns {[ "step" := "booked" ]}.
Proof.
  assert (Hs : ({[ "step" := "booked" ]} : dict) !! "step" = Some "booked")
    by reflexivity.
  destruct (terminal_idempotence "thanks" _ Hs) as ((r & Hr & Hmsg & _) & Hrun).
  split; [|apply Hrun].
  rewrite Hr. f_equal. f_equal. apply Hmsg. vm_compute. discriminate.
Defined.

(** ** A step outside the script *)

(** C7, as stated, fails: an utterance of whitespace only is not empty, and
    at an unknown step it is answered by "Please provide your input.", not
    by the 'didn't understand' reply. *)
Lemma whitespace_at_bogus_step :
  " " <> ""
  /\ process_user_input " " (PyDict {[ "step" := "bogus" ]})
     = Returns (provide_input_prompt, {[ "step" := "bogus" ]})
  /\ process_user_input " " (PyDict {[ "step" := "bogus" ]})
     <> Returns (not_understood, {[ "step" := "bogus" ]}).
Proof.
  assert (H : process_user_input " " (PyDict {[ "step" := "bogus" ]})
              = Returns (provide_input_prompt, {[ "step" := "bogus" ]}))
    by reflexivity.
  split; [discriminate|]. split; [exact H|].
  rewrite H. intros E. inversion E.
Qed.

(** C7, amended: for every utterance whose trimmed text is not empty and
    every state whose [step] is present but none of the five of the script,
    the transition returns the state unchanged with the 'didn't understand,
    please repeat' reply. *)
Theorem unknown_step_recovery (u : string) (d : dict) (s : string) :
  strip u <> "" ->
  d !! "step" = Some s ->
  known_step s = false ->
  process_user_input u (PyDict d) = Returns (not_understood, d).
Proof. exact (Engine.process_unknown u d s). Qed.

Lemma unknown_step_recovery_witness :
  process_user_input "anything" (PyDict {[ "step" := "bogus" ]})
  = Returns (not_understood, {[ "step" := "bogus" ]}).
Proof.
  apply (unknown_step_recovery "anything" {[ "step" := "bogus" ]} "bogus").
  - vm_compute. discriminate.
  - reflexivity.
  - reflexivity.
Defined.

(** ** The session table *)

Lemma gather_response_returns (form : dict) (active_calls : calls) :
  let sid := form_get form "CallSid" in
  exists r d' p,
    process_user_input (form_get form "SpeechResult")
      (PyDict (lookup_state sid active_calls).1) = Returns (r, d')
    /\ gather_response form active_calls
       = Returns (Gathered (<[sid := d']> active_calls) r p).
Proof.
  intros sid. unfold gather_response. fold sid. cbn [lookup_state fst].
  destruct (process_user_input_returns (form_get form "SpeechResult")
              (default {[ "step" := "ask_location" ]} (active_calls !! sid)))
    as (r & d' & ->).
  do 3 eexists. split; reflexivity.
Qed.

(** C8, as stated, fails, in two places.  The lookup of [gather_response]
    is a plain [dict.get] with a default: for an unknown call it yields a
    fresh record but stores nothing in the table.  And [incoming_call]
    creates nothing when the call identifier is missing or empty. *)
Lemma lookup_does_not_store :
  lookup_state "CA1" ∅ = (fresh, ∅)
  /\ getOrCreate_spec "CA1" ∅ = (fresh, {[ "CA1" := fresh ]})
  /\ (lookup_state "CA1" ∅).2 !! "CA1" <> (getOrCreate_spec "CA1" ∅).2 !! "CA1"
  /\ incoming_call {[ "CallSid" := "" ]} ∅ = ∅
  /\ (getOrCreate_spec "" ∅).2 = {[ "" := fresh ]}
  /\ incoming_call {[ "CallSid" := "" ]} ∅ !! "" <> (getOrCreate_spec "" ∅).2 !! "".
Proof.
  repeat split; try (vm_compute; reflexivity);
    intros E; vm_compute in E; discriminate E.
Qed.

(** C8, amended: at call start, for every call identifier that is not
    empty, the table keeps the record it has for it and otherwise gets a
    fresh [{step: ask_location}] record stored under it, as [getOrCreate]
    prescribes; with an empty identifier the table is left alone.  At a
    speech result, for every call identifier (the empty one too), the lookup
    yields the stored record or else a fresh [{step: ask_location}] record,
    never 'no record', and stores nothing by itself; the handler then puts
    the transition's next state under the identifier, which leaves the
    table as [getOrCreate] followed by that put would. *)
Theorem session_get_or_create (form : dict) (active_calls : calls) :
  let sid := form_get form "CallSid" in
  (sid <> "" ->
   incoming_call form active_calls = (getOrCreate_spec sid active_calls).2)
  /\ (sid = "" -> incoming_call form active_calls = active_calls)
  /\ lookup_state sid active_calls
     = ((getOrCreate_spec sid active_calls).1, active_calls)
  /\ exists r d' p,
       process_user_input (form_get form "SpeechResult")
         (PyDict (getOrCreate_spec sid active_calls).1) = Returns (r, d')
       /\ gather_response form active_calls
          = Returns (Gathered
                       (<[sid := d']> (getOrCreate_spec sid active_calls).2)
                       r p).
Proof.
  intros sid.
  assert (Hlook : lookup_state sid active_calls
                  = ((getOrCreate_spec sid active_calls).1, active_calls)).
  { unfold lookup_state, getOrCreate_spec.
    destruct (active_calls !! sid); reflexivity. }
  split; [|split; [|split; [exact Hlook|]]].
  - intros Hsid. unfold incoming_call. fold sid.
    rewrite (proj2 (PyStrFacts.is_empty_false sid) Hsid).
    unfold setdefault, getOrCreate_spec.
    destruct (active_calls !! sid); reflexivity.
  - intros Hsid. unfold incoming_call. fold sid. now rewrite Hsid.
  - destruct (gather_response_returns form active_calls)
      as (r & d' & p & Hp & Hg). fold sid in Hp, Hg.
    rewrite Hlook in Hp. cbn [fst] in Hp.
    exists r, d', p. split; [exact Hp|]. rewrite Hg. do 2 f_equal.
    unfold getOrCreate_spec. destruct (active_calls !! sid); cbn [snd];
      [reflexivity | now rewrite insert_insert_eq].
Qed.

Lemma session_get_or_create_witness :
  incoming_call {[ "CallSid" := "CA1" ]} ∅ = {[ "CA1" := fresh ]}.
Proof.
  destruct (session_get_or_create {[ "CallSid" := "CA1" ]} ∅) as (H & _).
  rewrite H; [reflexivity|]. vm_compute. discriminate.
Defined.

(** ** The order in which the fields are filled *)

Lemma has_key_insert_eq (k v : string) (d : dict) :
  has_key k (<[k := v]> d) = true.
Proof.
  unfold has_key. apply bool_decide_eq_true_2.
  rewrite lookup_insert_eq. by eexists.
Qed.

Lemma has_key_insert_ne (k j v : string) (d : dict) :
  k <> j -> has_key j (<[k := v]> d) = has_key j d.
Proof. intros Hne. unfold has_key. by rewrite lookup_insert_ne. Qed.

Lemma field_order_fresh : field_order fresh = true.
Proof. reflexivity. Qed.

(** One turn keeps the order of the fields. *)
Lemma field_order_step (u : string) (d : dict) :
  field_order d = true ->
  exists r d',
    process_user_input u (PyDict d) = Returns (r, d') /\ field_order d' = true.
Proof.
  intros Hinv. destruct (string_dec (strip u) "") as [Hu|Hu].
  { destruct (Engine.process_blank u d Hu) as (r & Hr & _). eauto. }
  destruct (d !! "step") as [s|] eqn:Hs.
  2: { rewrite (Engine.process_no_step u d Hu Hs). eauto using field_order_fresh. }
  unfold field_order in Hinv. rewrite Hs in Hinv.
  destruct (string_dec s "ask_location") as [E|H1]; [subst s|].
  { rewrite (Engine.process_ask_location u d Hu Hs). do 2 eexists.
    split; [reflexivity|]. unfold field_order. rewrite lookup_insert_eq.
    rewrite !(has_key_insert_ne "step"), has_key_insert_eq,
      !(has_key_insert_ne "location") by discriminate.
    cbn in Hinv |- *. destruct (has_key "location" d); [discriminate|].
    exact Hinv. }
  destruct (string_dec s "ask_dates") as [E|H2]; [subst s|].
  { rewrite (Engine.process_ask_dates u d Hu Hs). do 2 eexists.
    split; [reflexivity|]. unfold field_order. rewrite lookup_insert_eq.
    rewrite !(has_key_insert_ne "step"), has_key_insert_eq,
      !(has_key_insert_ne "dates") by discriminate.
    cbn in Hinv |- *. destruct (has_key "location" d); [|discriminate].
    destruct (has_key "dates" d); [discriminate|]. exact Hinv. }
  destruct (string_dec s "ask_room_type") as [E|H3]; [subst s|].
  { rewrite (Engine.process_ask_room_type u d Hu Hs). do 2 eexists.
    split; [reflexivity|]. unfold field_order. rewrite lookup_insert_eq.
    rewrite !(has_key_insert_ne "step"), has_key_insert_eq,
      !(has_key_insert_ne "room_type") by discriminate.
    cbn in Hinv |- *. destruct (has_key "location" d); [|discriminate].
    destruct (has_key "dates" d); [reflexivity | discriminate]. }
  destruct (string_dec s "confirm") as [E|H4]; [subst s|].
  { destruct (contains "yes" (lower (strip u))) eqn:Hy.
    - rewrite (Engine.process_confirm_yes u d Hu Hs Hy). do 2 eexists.
      split; [reflexivity|]. unfold field_order. rewrite lookup_insert_eq.
      rewrite !(has_key_insert_ne "step") by discriminate. exact Hinv.
    - rewrite (Engine.process_confirm_no u d Hu Hs Hy).
      eauto using field_order_fresh. }
  destruct (string_dec s "booked") as [E|H5]; [subst s|].
  { rewrite (Engine.process_booked u d Hu Hs). do 2 eexists.
    split; [reflexivity|]. unfold field_order. now rewrite Hs. }
  assert (Hk : known_step s = false).
  { unfold known_step.
    repeat match goal with
           | H : s <> ?x |- _ => apply String.eqb_neq in H; rewrite H; clear H
           end. reflexivity. }
  rewrite (Engine.process_unknown u d s Hu Hs Hk). do 2 eexists.
  split; [reflexivity|]. unfold field_order. rewrite Hs.
  unfold known_step in Hk. apply orb_false_iff in Hk as [Hk Hb].
  apply orb_false_iff in Hk as [Hk Hc]. apply orb_false_iff in Hk as [Hk Hr].
  apply orb_false_iff in Hk as [Hl Hd].
  now rewrite Hl, Hd, Hr, Hc, Hb.
Qed.

(** Every state a dialogue reaches from a well-ordered one is well ordered. *)
Lemma field_order_run (texts : list string) (d : dict) :
  field_order d = true ->
  exists d', run texts d = Returns d' /\ field_order d' = true.
Proof.
  revert d. induction texts as [|u texts IH]; intros d Hinv; [by exists d|].
  cbn [run]. destruct (field_order_step u d Hinv) as (r & d' & -> & Hinv').
  exact (IH d' Hinv').
Qed.

(** The handlers keep every record of the table well ordered. *)
Lemma field_order_incoming_call (form : dict) (active_calls : calls) :
  map_Forall (fun _ d => field_order d = true) active_calls ->
  map_Forall (fun _ d => field_order d = true) (incoming_call form active_calls).
Proof.
  intros Hall. unfold incoming_call, setdefault.
  destruct (negb (is_empty (form_get form "CallSid"))); [|exact Hall].
  destruct (active_calls !! form_get form "CallSid"); [exact Hall|].
  apply map_Forall_insert_2; [exact field_order_fresh | exact Hall].
Qed.

Lemma field_order_gather_response (form : dict) (active_calls : calls) :
  map_Forall (fun _ d => field_order d = true) active_calls ->
  exists g,
    gather_response form active_calls = Returns g
    /\ map_Forall (fun _ d => field_order d = true) (table g).
Proof.
  intros Hall. unfold gather_response, lookup_state.
  set (sid := form_get form "CallSid").
  assert (Hin : field_order (default {[ "step" := "ask_location" ]}
                               (active_calls !! sid)) = true).
  { destruct (active_calls !! sid) as [d|] eqn:Hd; cbn [default from_option id].
    - exact (Hall sid d Hd).
    - exact field_order_fresh. }
  destruct (field_order_step (form_get form "SpeechResult") _ Hin)
    as (r & d' & -> & Hout).
  eexists. split; [reflexivity|]. cbn [table].
  apply map_Forall_insert_2; [exact Hout | exact Hall].
Qed.

(** C9: the order of the fields (nothing at [ask_location], the location
    only at [ask_dates], location and dates only at [ask_room_type], all
    three at [confirm] and [booked]) holds of the fresh record and is kept
    by every invocation of the transition function, whatever the
    utterance. *)
Theorem field_order_invariant :
  field_order fresh = true
  /\ (forall (u : string) (d : dict),
        field_order d = true ->
        exists r d',
          process_user_input u (PyDict d) = Returns (r, d')
          /\ field_order d' = true).
Proof. split; [exact field_order_fresh | exact field_order_step]. Qed.

Lemma field_order_invariant_witness :
  exists r d',
    process_user_input "Paris" (PyDict fresh) = Returns (r, d')
    /\ field_order d' = true.
Proof.
  destruct field_order_invariant as [Hfresh Hstep].
  exact (Hstep "Paris" fresh Hfresh).
Defined.

(** ** Whitespace around the utterance *)

(** The four things a turn can do to the record: nothing, reset it, mark it
    booked, or store the trimmed utterance in one answer field and move on. *)
Lemma next_state_shape (u : string) (d : dict) :
  exists r d',
    process_user_input u (PyDict d) = Returns (r, d')
    /\ (d' = d \/ d' = fresh \/ d' = <["step" := "booked"]> d
        \/ exists k next,
             answer_field k /\ d' = <["step" := next]> (<[k := strip u]> d)).
Proof.
  unfold process_user_input, answer_field; cbv zeta.
  repeat match goal with
         | |- context [if ?b then _ else _] => destruct b
         end;
    do 2 eexists; (split; [reflexivity|]);
    first [ left; reflexivity
          | right; left; reflexivity
          | right; right; left; reflexivity
          | right; right; right; do 2 eexists; split; [|reflexivity]; tauto ].
Qed.

Lemma stored_value (u : string) (d : dict) (r : string) (d' : dict)
      (k v : string) :
  process_user_input u (PyDict d) = Returns (r, d') ->
  answer_field k ->
  d' !! k = Some v ->
  d !! k = Some v \/ v = strip u.
Proof.
  intros Hp Hk Hv.
  destruct (next_state_shape u d) as (r0 & d0 & E & Hshape).
  rewrite Hp in E. injection E as <- <-.
  assert (Hstep : k <> "step")
    by (destruct Hk as [->|[->| ->]]; discriminate).
  destruct Hshape as [->|[->|[->|(k0 & next & _ & ->)]]].
  - now left.
  - destruct Hk as [->|[->| ->]]; vm_compute in Hv; discriminate.
  - left. now rewrite lookup_insert_ne in Hv by congruence.
  - rewrite lookup_insert_ne in Hv by congruence.
    destruct (string_dec k0 k) as [->|Hne].
    + right. rewrite lookup_insert_eq in Hv. congruence.
    + left. now rewrite lookup_insert_ne in Hv by congruence.
Qed.

(** C10: the function works on the trimmed utterance: [u] and [strip u] give
    the same result in every state; an utterance of whitespace only gives
    what the empty utterance gives (on a dict: the record unchanged); and
    the value found in [location], [dates] or [room_type] after a turn is
    the one that was there before or the trimmed utterance, which has no
    whitespace at either end. *)
Theorem whitespace_normalization :
  (forall (u : string) (state : pyvalue),
     process_user_input u state = process_user_input (strip u) state)
  /\ (forall (u : string) (state : pyvalue),
        strip u = "" ->
        process_user_input u state = process_user_input "" state)
  /\ (forall (u : string) (d : dict),
        strip u = "" ->
        exists r, process_user_input u (PyDict d) = Returns (r, d))
  /\ (forall (u : string) (d : dict) (r : string) (d' : dict) (k v : string),
        process_user_input u (PyDict d) = Returns (r, d') ->
        answer_field k ->
        d' !! k = Some v ->
        d !! k = Some v
        \/ (v = strip u /\ starts_space v = false /\ ends_space v = false)).
Proof.
  split; [|split; [|split]].
  - intros u state. unfold process_user_input; cbv zeta.
    now rewrite PyStrFacts.strip_idem.
  - intros u state Hu. unfold process_user_input; cbv zeta.
    now rewrite Hu.
  - intros u d Hu. destruct (Engine.process_blank u d Hu) as (r & Hr & _).
    eauto.
  - intros u d r d' k v Hp Hk Hv.
    destruct (stored_value u d r d' k v Hp Hk Hv) as [H| ->]; [now left|].
    right. split; [reflexivity|].
    split; [apply PyStrFacts.starts_space_strip | apply PyStrFacts.ends_space_strip].
Qed.

Lemma whitespace_normalization_witness :
  process_user_input "  Paris " (PyDict fresh)
  = process_user_input "Paris" (PyDict fresh)
  /\ process_user_input "   " (PyDict fresh) = process_user_input "" (PyDict fresh).
Proof.
  destruct whitespace_normalization as (Htrim & Hblank & _).
  split.
  - exact (Htrim "  Paris " (PyDict fresh)).
  - apply Hblank. reflexivity.
Defined.

(** ** One turn, branch by branch *)

Lemma nonblank_true (u : string) : nonblank u = true <-> strip u <> "".
Proof.
  unfold nonblank. rewrite negb_true_iff. apply PyStrFacts.is_empty_false.
Qed.

Lemma nonblank_false (u : string) : nonblank u = false <-> strip u = "".
Proof.
  unfold nonblank. rewrite negb_false_iff. apply PyStrFacts.is_empty_true.
Qed.

Lemma known_step_cases (s : string) :
  s = "ask_location" \/ s = "ask_dates" \/ s = "ask_room_type"
  \/ s = "confirm" \/ s = "booked" \/ known_step s = false.
Proof.
  unfold known_step.
  destruct (String.eqb_spec s "ask_location"); [tauto|].
  destruct (String.eqb_spec s "ask_dates"); [tauto|].
  destruct (String.eqb_spec s "ask_room_type"); [tauto|].
  destruct (String.eqb_spec s "confirm"); [tauto|].
  destruct (String.eqb_spec s "booked"); tauto.
Qed.

(** The function returns, and what it returns is one of the nine turns. *)
Lemma process_turn (u : string) (d : dict) :
  exists r d', process_user_input u (PyDict d) = Returns (r, d') /\ turn u d d'.
Proof.
  destruct (string_dec (strip u) "") as [Hu|Hu].
  { destruct (Engine.process_blank u d Hu) as (r & Hr & _).
    exists r, d. split; [exact Hr | now constructor]. }
  destruct (d !! "step") as [s|] eqn:Hs.
  2: { rewrite (Engine.process_no_step u d Hu Hs).
       do 2 eexists. split; [reflexivity | now apply turn_init]. }
  destruct (known_step_cases s) as [->|[->|[->|[->|[->|Hk]]]]].
  - rewrite (Engine.process_ask_location u d Hu Hs).
    do 2 eexists. split; [reflexivity | now apply turn_location].
  - rewrite (Engine.process_ask_dates u d Hu Hs).
    do 2 eexists. split; [reflexivity | now apply turn_dates].
  - rewrite (Engine.process_ask_room_type u d Hu Hs).
    do 2 eexists. split; [reflexivity | now apply turn_room_type].
  - destruct (contains "yes" (lower (strip u))) eqn:Hy.
    + rewrite (Engine.process_confirm_yes u d Hu Hs Hy).
      do 2 eexists. split; [reflexivity | now apply turn_yes].
    + rewrite (Engine.process_confirm_no u d Hu Hs Hy).
      do 2 eexists. split; [reflexivity | now apply turn_no].
  - rewrite (Engine.process_booked u d Hu Hs).
    do 2 eexists. split; [reflexivity | now apply turn_booked].
  - rewrite (Engine.process_unknown u d s Hu Hs Hk).
    do 2 eexists. split; [reflexivity | now apply (turn_unknown u d s)].
Qed.

Lemma process_turn_inv (u : string) (d : dict) (r : string) (d' : dict) :
  process_user_input u (PyDict d) = Returns (r, d') -> turn u d d'.
Proof.
  intros Hp. destruct (process_turn u d) as (r0 & d0 & E & Ht).
  rewrite Hp in E. now injection E as <- <-.
Qed.

(** A dialogue never raises. *)
Lemma run_returns (texts : list string) (d : dict) :
  exists d', run texts d = Returns d'.
Proof.
  revert d. induction texts as [|u texts IH]; intros d; [by exists d|].
  cbn [run]. destruct (process_turn u d) as (r & d' & -> & _). apply IH.
Qed.

(** ** Whole dialogues *)

(** Silent turns can be struck out of a dialogue: the record it ends in
    depends on the utterances that are not blank only. *)
Theorem run_skips_silence (texts : list string) (d : dict) :
  run texts d = run (List.filter nonblank texts) d.
Proof.
  revert d. induction texts as [|u texts IH]; intros d; [reflexivity|].
  cbn [List.filter]. destruct (nonblank u) eqn:Hu.
  - cbn [run]. destruct (process_user_input u (PyDict d)) as [[r d']|e];
      [apply IH | reflexivity].
  - apply nonblank_false in Hu. cbn [run].
    destruct (Engine.process_blank u d Hu) as (r & -> & _). apply IH.
Qed.

(** A turn writes to [step] and to the three answer fields only: any other
    key of the record keeps its value, unless the record is replaced by the
    fresh one, which happens on an utterance that is not blank when the step
    is missing or when it is [confirm]. *)
Theorem turn_frame (u : string) (d : dict) (r : string) (d' : dict) :
  process_user_input u (PyDict d) = Returns (r, d') ->
  (d' = {[ "step" := "ask_location" ]}
   /\ strip u <> ""
   /\ (d !! "step" = None \/ d !! "step" = Some "confirm"))
  \/ (forall k, k <> "step" -> ~ answer_field k -> d' !! k = d !! k).
Proof.
  intros Hp. apply process_turn_inv in Hp.
  inversion Hp; subst; try (right; intros k Hk Ha; reflexivity);
    try (left; split; [reflexivity | split; [assumption | tauto]]);
    right; intros k Hk Ha; unfold answer_field in Ha;
    rewrite ?(lookup_insert_ne _ "step") by congruence;
    try reflexivity;
    apply lookup_insert_ne; intros <-; tauto.
Qed.

Lemma turn_frame_witness :
  exists r d',
    process_user_input "Paris" (PyDict (<["lang" := "en"]> fresh))
    = Returns (r, d')
    /\ d' !! "lang" = Some "en".
Proof.
  destruct (process_user_input_returns "Paris" (<["lang" := "en"]> fresh))
    as (r & d' & Hp).
  exists r, d'. split; [exact Hp|].
  destruct (turn_frame "Paris" (<["lang" := "en"]> fresh) r d' Hp)
    as [(_ & _ & [E|E])|H].
  - vm_compute in E. discriminate E.
  - vm_compute in E. discriminate E.
  - rewrite H; [reflexivity | discriminate |].
    unfold answer_field. intros [E|[E|E]]; discriminate E.
Defined.

(** *** The step stays in the script *)

Lemma valid_step_turn (u : string) (d d' : dict) :
  turn u d d' -> valid_step d = true -> valid_step d' = true.
Proof.
  intros Ht Hv. inversion Ht; subst; try assumption; try reflexivity;
    unfold valid_step; now rewrite lookup_insert_eq.
Qed.

(** A record at one of the five steps is at one of the five steps after
    every dialogue, whatever is said. *)
Theorem valid_step_kept (texts : list string) (d : dict) :
  valid_step d = true ->
  exists d', run texts d = Returns d' /\ valid_step d' = true.
Proof.
  revert d. induction texts as [|u texts IH]; intros d Hv; [by exists d|].
  cbn [run]. destruct (process_turn u d) as (r & d' & -> & Ht).
  apply IH. exact (valid_step_turn u d d' Ht Hv).
Qed.

Lemma valid_step_kept_witness :
  exists d', run ["Paris"; ""; "tomorrow"] fresh = Returns d'
             /\ valid_step d' = true.
Proof. apply (valid_step_kept ["Paris"; ""; "tomorrow"] fresh). reflexivity. Defined.

(** A record whose step is present but none of the five is stuck: no
    dialogue changes it, and so none brings it back into the script. *)
Theorem unknown_step_stuck (texts : list string) (d : dict) (s : string) :
  d !! "step" = Some s -> known_step s = false ->
  run texts d = Returns d.
Proof.
  intros Hs Hk. induction texts as [|u texts IH]; [reflexivity|].
  cbn [run]. destruct (process_turn u d) as (r & d' & -> & Ht).
  assert (d' = d) as ->; [|exact IH].
  inversion Ht; subst; try reflexivity; simplify_eq; discriminate.
Qed.

Lemma unknown_step_stuck_witness :
  run ["Paris"; "yes"; " "] {[ "step" := "bogus" ]}
  = Returns {[ "step" := "bogus" ]}.
Proof.
  apply (unknown_step_stuck _ _ "bogus"); reflexivity.
Defined.

(** *** How fast a booking can be reached *)

Lemma rank_turn (u : string) (d d' : dict) :
  turn u d d' -> rank d' <= rank d + (if nonblank u then 1 else 0).
Proof.
  intros Ht.
  inversion Ht; subst; try lia;
    try (change (rank fresh) with 0; lia);
    match goal with
    | H : strip u <> "" |- _ => apply nonblank_true in H; rewrite H
    end;
    unfold rank;
    match goal with H : d !! "step" = _ |- _ => rewrite H end;
    rewrite lookup_insert_eq; cbn; lia.
Qed.

Lemma rank_run (texts : list string) (d d' : dict) :
  run texts d = Returns d' ->
  rank d' <= rank d + length (List.filter nonblank texts).
Proof.
  revert d. induction texts as [|u texts IH]; intros d Hr.
  - injection Hr as <-. cbn. lia.
  - cbn [run] in Hr. destruct (process_turn u d) as (r & d1 & E & Ht).
    rewrite E in Hr. specialize (IH d1 Hr).
    pose proof (rank_turn u d d1 Ht) as Hstep.
    cbn [List.filter]. destruct (nonblank u); cbn [length]; lia.
Qed.

(** From the fresh record no dialogue reaches [booked] with fewer than four
    utterances that are not blank. *)
Theorem booked_needs_four_answers (texts : list string) (d' : dict) :
  run texts fresh = Returns d' ->
  d' !! "step" = Some "booked" ->
  4 <= length (List.filter nonblank texts).
Proof.
  intros Hr Hb. pose proof (rank_run texts fresh d' Hr) as H.
  unfold rank at 1 in H. rewrite Hb in H. cbn in H. exact H.
Qed.

Lemma booked_needs_four_answers_witness :
  4 <= length (List.filter nonblank ["Paris"; " "; "May 1"; "suite"; "yes"]).
Proof.
  eapply (booked_needs_four_answers _ _); [vm_compute; reflexivity | reflexivity].
Defined.

(** *** The answers a dialogue collects *)

Lemma yes_nonblank (u : string) :
  contains "yes" (lower u) = true -> strip u <> "".
Proof.
  intros Hy Hu. destruct yes_no_space as [H1 H2].
  rewrite <- (PyStrFacts.contains_lower_strip "yes" u H1 H2), Hu in Hy.
  discriminate Hy.
Qed.

(** Three answers and a yes book the call: from the fresh record, three
    utterances that are not blank followed by one that contains "yes" in any
    letter case end in [booked], with the three trimmed utterances as
    location, dates and room type, and nothing else in the record. *)
Theorem four_answers_book (a b c y : string) :
  strip a <> "" -> strip b <> "" -> strip c <> "" ->
  contains "yes" (lower y) = true ->
  run [a; b; c; y] fresh
  = Returns {[ "step" := "booked"; "location" := strip a;
               "dates" := strip b; "room_type" := strip c ]}.
Proof.
  intros Ha Hb Hc Hy.
  pose proof (yes_nonblank y Hy) as Hy0.
  destruct yes_no_space as [H1 H2].
  rewrite <- (PyStrFacts.contains_lower_strip "yes" y H1 H2) in Hy.
  cbn [run].
  rewrite (Engine.process_ask_location a fresh Ha eq_refl).
  rewrite (Engine.process_ask_dates b _ Hb (lookup_insert_eq _ _ _)).
  rewrite (Engine.process_ask_room_type c _ Hc (lookup_insert_eq _ _ _)).
  rewrite (Engine.process_confirm_yes y _ Hy0 (lookup_insert_eq _ _ _) Hy).
  reflexivity.
Qed.

Lemma four_answers_book_witness :
  run [" Paris"; "June 1 to June 5 "; "suite"; "Yes, please"] fresh
  = Returns {[ "step" := "booked"; "location" := "Paris";
               "dates" := "June 1 to June 5"; "room_type" := "suite" ]}.
Proof.
  apply (four_answers_book " Paris" "June 1 to June 5 " "suite" "Yes, please");
    try (vm_compute; discriminate); reflexivity.
Defined.

Lemma lower_app (a b : string) : lower (a +:+ b) = lower a +:+ lower b.
Proof.
  induction a as [|x a IH]; [reflexivity|].
  change (String (lower_char x) (lower (a +:+ b))
          = String (lower_char x) (lower a +:+ lower b)).
  now rewrite IH.
Qed.

(** The confirmation looks for the three letters only: at [confirm] an
    utterance that has "yes" in it anywhere, in any letter case and whatever
    stands before and after it, books the call. *)
Theorem yes_anywhere_books (a w b : string) (d : dict) :
  lower w = "yes" ->
  d !! "step" = Some "confirm" ->
  process_user_input (a +:+ w +:+ b) (PyDict d)
  = Returns (booking_confirmed, <["step" := "booked"]> d).
Proof.
  intros Hw Hs.
  assert (Hy : contains "yes" (lower (a +:+ w +:+ b)) = true).
  { rewrite !lower_app, Hw. apply PyStrFacts.contains_app. }
  destruct yes_no_space as [H1 H2].
  apply Engine.process_confirm_yes; [now apply yes_nonblank | exact Hs |].
  now rewrite (PyStrFacts.contains_lower_strip "yes" _ H1 H2).
Qed.

Lemma yes_anywhere_books_witness :
  process_user_input "no, not YES at all" (PyDict {[ "step" := "confirm" ]})
  = Returns (booking_confirmed, {[ "step" := "booked" ]}).
Proof.
  assert (Hs : ({[ "step" := "confirm" ]} : dict) !! "step" = Some "confirm")
    by reflexivity.
  exact (yes_anywhere_books "no, not " "YES" " at all" _ eq_refl Hs).
Defined.

Lemma answers_clean_fresh : answers_clean fresh.
Proof.
  intros k v [->|[->| ->]] Hv; vm_compute in Hv; discriminate Hv.
Qed.

Lemma answers_clean_store (k next u : string) (d : dict) :
  k <> "step" -> strip u <> "" -> answers_clean d ->
  answers_clean (<["step" := next]> (<[k := strip u]> d)).
Proof.
  intros Hk Hu Hd j v Hj Hv.
  assert (Hjs : j <> "step")
    by (destruct Hj as [->|[->| ->]]; discriminate).
  rewrite lookup_insert_ne in Hv by congruence.
  destruct (decide (k = j)) as [->|Hne].
  - rewrite lookup_insert_eq in Hv. injection Hv as <-.
    split; [exact Hu|].
    split; [apply PyStrFacts.starts_space_strip | apply PyStrFacts.ends_space_strip].
  - rewrite lookup_insert_ne in Hv by done. exact (Hd j v Hj Hv).
Qed.

Lemma answers_clean_turn (u : string) (d d' : dict) :
  turn u d d' -> answers_clean d -> answers_clean d'.
Proof.
  intros Ht Hd. inversion Ht; subst; try assumption;
    try exact answers_clean_fresh;
    try (apply answers_clean_store; [discriminate | assumption | assumption]).
  intros j v Hj Hv.
  assert (Hjs : j <> "step")
    by (destruct Hj as [->|[->| ->]]; discriminate).
  rewrite lookup_insert_ne in Hv by congruence. exact (Hd j v Hj Hv).
Qed.

(** The answers a record holds stay clean through every dialogue: when each
    of location, dates and room type that the record has is a non-empty text
    without whitespace at either end, the same holds of the record the
    dialogue ends in.  In particular no blank or padded answer is ever
    stored. *)
Theorem answers_stay_clean (texts : list string) (d : dict) :
  answers_clean d ->
  exists d', run texts d = Returns d' /\ answers_clean d'.
Proof.
  revert d. induction texts as [|u texts IH]; intros d Hd; [by exists d|].
  cbn [run]. destruct (process_turn u d) as (r & d' & -> & Ht).
  apply IH. exact (answers_clean_turn u d d' Ht Hd).
Qed.

Lemma answers_stay_clean_witness :
  exists d', run ["  Paris  "; "   "; " May 1 "] fresh = Returns d'
             /\ answers_clean d'.
Proof.
  apply (answers_stay_clean ["  Paris  "; "   "; " May 1 "] fresh).
  intros k v [->|[->| ->]] Hv; vm_compute in Hv; discriminate Hv.
Defined.

(** An answer that is missing when the confirmation is put together is
    spoken as the word None: at [ask_room_type], if the record has no dates
    or no location, the reply contains "None". *)
Theorem missing_answer_reads_None (u : string) (d : dict) :
  strip u <> "" ->
  d !! "step" = Some "ask_room_type" ->
  d !! "dates" = None \/ d !! "location" = None ->
  exists r d',
    process_user_input u (PyDict d) = Returns (r, d')
    /\ contains "None" r = true.
Proof.
  intros Hu Hs Hmiss.
  rewrite (Engine.process_ask_room_type u d Hu Hs).
  do 2 eexists. split; [reflexivity|].
  destruct Hmiss as [H|H]; rewrite H.
  - apply PyStrFacts.contains_app2.
  - apply PyStrFacts.contains_app3.
Qed.

Lemma missing_answer_reads_None_witness :
  exists r d',
    process_user_input "suite" (PyDict {[ "step" := "ask_room_type" ]})
    = Returns (r, d')
    /\ contains "None" r = true.
Proof.
  apply (missing_answer_reads_None "suite" {[ "step" := "ask_room_type" ]}).
  - vm_compute. discriminate.
  - reflexivity.
  - left. reflexivity.
Defined.

(** ** Sequences of requests *)

(** What [gather_response] does, in terms of the turn it takes. *)
Lemma gather_response_turn (form : dict) (active_calls : calls) :
  exists g d',
    gather_response form active_calls = Returns g
    /\ turn (form_get form "SpeechResult")
         (lookup_state (form_get form "CallSid") active_calls).1 d'
    /\ process_user_input (form_get form "SpeechResult")
         (PyDict (lookup_state (form_get form "CallSid") active_calls).1)
       = Returns (reply g, d')
    /\ table g = <[form_get form "CallSid" := d']> active_calls
    /\ (next_prompt g = None <-> d' !! "step" = Some "booked").
Proof.
  unfold gather_response, lookup_state. cbn [fst].
  destruct (process_turn (form_get form "SpeechResult")
              (default {[ "step" := "ask_location" ]}
                 (active_calls !! form_get form "CallSid")))
    as (r & d' & E & Ht).
  rewrite E. do 2 eexists. split; [reflexivity|].
  split; [exact Ht|]. cbn [table next_prompt reply].
  split; [reflexivity|]. split; [reflexivity|].
  repeat case_bool_decide; cbn [negb]; split; intros H';
    try discriminate H'; try reflexivity; congruence.
Qed.

Lemma incoming_call_other (form : dict) (active_calls : calls) (sid : string) :
  form_get form "CallSid" <> sid ->
  incoming_call form active_calls !! sid = active_calls !! sid.
Proof.
  intros Hne. unfold incoming_call, setdefault.
  destruct (negb (is_empty (form_get form "CallSid"))); [|reflexivity].
  destruct (active_calls !! form_get form "CallSid"); [reflexivity|].
  now apply lookup_insert_ne.
Qed.

Lemma serve_other_entry (reqs : list request) (active_calls : calls)
      (sid : string) :
  Forall (fun req => request_sid req <> sid) reqs ->
  exists t',
    serve reqs active_calls = Returns t' /\ t' !! sid = active_calls !! sid.
Proof.
  intros Hall. revert active_calls.
  induction Hall as [|req reqs Hreq _ IH]; intros t; [by exists t|].
  destruct req as [form|form]; cbn [serve request_sid] in *.
  - destruct (IH (incoming_call form t)) as (t' & -> & Ht').
    exists t'. split; [reflexivity|].
    rewrite Ht'. now apply incoming_call_other.
  - destruct (gather_response_turn form t) as (g & d' & -> & _ & _ & Hg & _).
    destruct (IH (table g)) as (t' & -> & Ht').
    exists t'. split; [reflexivity|].
    rewrite Ht', Hg. now apply lookup_insert_ne.
Qed.

(** Calls do not see each other: when a sequence of requests, none of them
    for a given call identifier, has been served, the record of that call is
    as it was before (and is absent if it was absent), whatever the
    requests were and in whatever order they came. *)
Theorem serve_isolation (reqs : list request) (active_calls : calls)
        (sid : string) (t' : calls) :
  Forall (fun req => request_sid req <> sid) reqs ->
  serve reqs active_calls = Returns t' ->
  t' !! sid = active_calls !! sid.
Proof.
  intros Hall Hs.
  destruct (serve_other_entry reqs active_calls sid Hall) as (t0 & E & H).
  rewrite Hs in E. now injection E as <-.
Qed.

Lemma serve_isolation_witness :
  let t : calls :=
    {[ "CA1" := <["location" := "Paris"]> {[ "step" := "ask_dates" ]} ]} in
  let reqs :=
    [CallStart {[ "CallSid" := "CA2" ]};
     SpeechResult {[ "CallSid" := "CA2"; "SpeechResult" := "Rome" ]}] in
  let t' : calls :=
    <["CA2" := <["step" := "ask_dates"]> (<["location" := "Rome"]> fresh)]> t in
  serve reqs t = Returns t' /\ t' !! "CA1" = t !! "CA1".
Proof.
  intros t reqs t'.
  assert (E : serve reqs t = Returns t') by (vm_compute; reflexivity).
  split; [exact E|].
  apply (serve_isolation reqs t "CA1" t'); [|exact E].
  repeat constructor; vm_compute; discriminate.
Defined.

Lemma serve_entries_stay (reqs : list request) (active_calls : calls) :
  exists t',
    serve reqs active_calls = Returns t'
    /\ forall sid, is_Some (active_calls !! sid) -> is_Some (t' !! sid).
Proof.
  revert active_calls. induction reqs as [|req reqs IH]; intros t.
  { exists t. split; [reflexivity | auto]. }
  destruct req as [form|form]; cbn [serve].
  - destruct (IH (incoming_call form t)) as (t' & -> & Ht').
    exists t'. split; [reflexivity|]. intros sid Hsid. apply Ht'.
    unfold incoming_call, setdefault.
    destruct (negb (is_empty (form_get form "CallSid"))); [|exact Hsid].
    destruct (t !! form_get form "CallSid") eqn:E; [exact Hsid|].
    rewrite lookup_insert_ne; [exact Hsid|].
    intros <-. rewrite E in Hsid. by destruct Hsid.
  - destruct (gather_response_turn form t) as (g & d' & -> & _ & _ & Hg & _).
    destruct (IH (table g)) as (t' & -> & Ht').
    exists t'. split; [reflexivity|]. intros sid Hsid. apply Ht'.
    rewrite Hg. destruct (decide (form_get form "CallSid" = sid)) as [->|Hne].
    + rewrite lookup_insert_eq. by eexists.
    + by rewrite lookup_insert_ne.
Qed.

(** Nothing is ever forgotten: when a sequence of requests has been
    served, a call that had a record in the table still has one (also after
    it is booked and hung up); no handler removes an entry. *)
Theorem serve_keeps_records (reqs : list request) (active_calls t' : calls)
        (sid : string) :
  serve reqs active_calls = Returns t' ->
  is_Some (active_calls !! sid) ->
  is_Some (t' !! sid).
Proof.
  intros Hs Hsid.
  destruct (serve_entries_stay reqs active_calls) as (t0 & E & H).
  rewrite Hs in E. injection E as <-. now apply H.
Qed.

Lemma serve_keeps_records_witness :
  let t : calls := {[ "CA1" := {[ "step" := "confirm" ]} ]} in
  let reqs :=
    [SpeechResult {[ "CallSid" := "CA1"; "SpeechResult" := "yes" ]};
     SpeechResult {[ "CallSid" := "CA1"; "SpeechResult" := "bye" ]}] in
  let t' : calls := {[ "CA1" := {[ "step" := "booked" ]} ]} in
  serve reqs t = Returns t' /\ is_Some (t' !! "CA1").
Proof.
  intros t reqs t'.
  assert (E : serve reqs t = Returns t') by (vm_compute; reflexivity).
  split; [exact E|].
  apply (serve_keeps_records reqs t t' "CA1" E).
  vm_compute. by eexists.
Defined.

(** A call-start notification never resets a dialogue: every record of the
    table, the call's own included, is kept as it is, and a repeated
    notification changes nothing. *)
Theorem incoming_call_keeps_progress (form : dict) (active_calls : calls) :
  (forall sid d, active_calls !! sid = Some d ->
                 incoming_call form active_calls !! sid = Some d)
  /\ incoming_call form (incoming_call form active_calls)
     = incoming_call form active_calls.
Proof.
  unfold incoming_call, setdefault.
  destruct (negb (is_empty (form_get form "CallSid"))); [|auto].
  destruct (active_calls !! form_get form "CallSid") eqn:E.
  - rewrite E. auto.
  - rewrite lookup_insert_eq. split; [|reflexivity].
    intros sid d Hd. rewrite lookup_insert_ne; [exact Hd|].
    intros <-. congruence.
Qed.

Lemma incoming_call_keeps_progress_witness :
  incoming_call {[ "CallSid" := "CA1" ]}
    {[ "CA1" := <["location" := "Paris"]> {[ "step" := "ask_dates" ]} ]}
  !! "CA1"
  = Some (<["location" := "Paris"]> {[ "step" := "ask_dates" ]}).
Proof.
  destruct (incoming_call_keeps_progress {[ "CallSid" := "CA1" ]}
              {[ "CA1" := <["location" := "Paris"]> {[ "step" := "ask_dates" ]} ]})
    as [H _].
  apply H. reflexivity.
Defined.

(** The call-start notification may be lost: a speech result is answered in
    the same way, and leaves the same table, whether or not a call start for
    the same call identifier was handled just before it. *)
Theorem call_start_optional (form0 form : dict) (active_calls : calls) :
  form_get form0 "CallSid" = form_get form "CallSid" ->
  gather_response form (incoming_call form0 active_calls)
  = gather_response form active_calls.
Proof.
  intros Hsid. unfold incoming_call, setdefault. rewrite Hsid.
  destruct (negb (is_empty (form_get form "CallSid"))); [|reflexivity].
  destruct (active_calls !! form_get form "CallSid") eqn:E; [reflexivity|].
  unfold gather_response, lookup_state. rewrite lookup_insert_eq, E.
  cbn [default from_option id].
  destruct (process_user_input _ _) as [[r d']|e]; [|reflexivity].
  now rewrite insert_insert_eq.
Qed.

Lemma call_start_optional_witness :
  gather_response {[ "CallSid" := "CA1"; "SpeechResult" := "Paris" ]}
    (incoming_call {[ "CallSid" := "CA1" ]} ∅)
  = gather_response {[ "CallSid" := "CA1"; "SpeechResult" := "Paris" ]} ∅.
Proof. apply call_start_optional. reflexivity. Defined.

(** *** The speech results of one call *)

Lemma serve_speech_known (forms : list dict) (sid : string)
      (active_calls : calls) (d0 : dict) :
  Forall (fun form => form_get form "CallSid" = sid) forms ->
  active_calls !! sid = Some d0 ->
  exists d',
    run (map (fun form => form_get form "SpeechResult") forms) d0 = Returns d'
    /\ serve (map SpeechResult forms) active_calls
       = Returns (<[sid := d']> active_calls).
Proof.
  intros Hall. revert active_calls d0.
  induction Hall as [|form forms Hform _ IH]; intros t d0 Hd0.
  { exists d0. split; [reflexivity|]. cbn. now rewrite insert_id. }
  cbn [map run serve].
  destruct (gather_response_turn form t) as (g & d1 & -> & _ & Hp & Hg & _).
  rewrite Hform in Hp, Hg. unfold lookup_state in Hp. cbn [fst] in Hp.
  rewrite Hd0 in Hp. cbn [default from_option id] in Hp. rewrite Hp, Hg.
  destruct (IH (<[sid := d1]> t) d1 (lookup_insert_eq _ _ _)) as (d' & Hr & Hs).
  exists d'. split; [exact Hr|]. rewrite Hs. now rewrite insert_insert_eq.
Qed.

(** The speech results of a call add up to one dialogue: after any number
    (not zero) of speech results for one call identifier, the call's record
    is the one [process_user_input] reaches by taking the utterances in
    turn, starting from the record the table had for the call, or from the
    fresh record if it had none; no other entry of the table changes.  The
    empty identifier of requests without a CallSid is one such call. *)
Theorem speech_results_are_a_run (form : dict) (forms : list dict)
        (sid : string) (active_calls : calls) :
  Forall (fun f => form_get f "CallSid" = sid) (form :: forms) ->
  exists d',
    run (map (fun f => form_get f "SpeechResult") (form :: forms))
        (default fresh (active_calls !! sid)) = Returns d'
    /\ serve (map SpeechResult (form :: forms)) active_calls
       = Returns (<[sid := d']> active_calls).
Proof.
  intros Hall. inversion Hall as [|? ? Hform Hrest]; subst.
  cbn [map run serve].
  destruct (gather_response_turn form active_calls)
    as (g & d1 & -> & _ & Hp & Hg & _).
  unfold lookup_state in Hp. cbn [fst] in Hp. fold fresh in Hp.
  rewrite Hp, Hg.
  destruct (serve_speech_known forms _ (<[form_get form "CallSid" := d1]> active_calls)
              d1 Hrest (lookup_insert_eq _ _ _)) as (d' & Hr & Hs).
  exists d'. split; [exact Hr|]. rewrite Hs. now rewrite insert_insert_eq.
Qed.

Lemma speech_results_are_a_run_witness :
  exists d',
    run ["Paris"; ""; "May 1 to May 3"] fresh = Returns d'
    /\ serve [SpeechResult {[ "CallSid" := "CA1"; "SpeechResult" := "Paris" ]};
              SpeechResult {[ "CallSid" := "CA1" ]};
              SpeechResult {[ "CallSid" := "CA1"; "SpeechResult" := "May 1 to May 3" ]}]
             ∅
       = Returns {[ "CA1" := d' ]}.
Proof.
  assert (Hall : Forall (fun f : dict => form_get f "CallSid" = "CA1")
                   [ {[ "CallSid" := "CA1"; "SpeechResult" := "Paris" ]};
                     {[ "CallSid" := "CA1" ]};
                     {[ "CallSid" := "CA1"; "SpeechResult" := "May 1 to May 3" ]} ])
    by (repeat constructor).
  destruct (speech_results_are_a_run _ _ "CA1" ∅ Hall) as (d' & Hr & Hs).
  exists d'. split; [exact Hr | exact Hs].
Defined.

(** The line is hung up exactly when the call is booked: the answer to a
    speech result ends the call if and only if the call's record was already
    at [booked], or was at [confirm] and the utterance contains "yes" in some
    letter case; in every other case the caller is asked to speak again. *)
Theorem hangup_iff_booked (form : dict) (active_calls : calls) (g : gathered) :
  gather_response form active_calls = Returns g ->
  let state := (lookup_state (form_get form "CallSid") active_calls).1 in
  next_prompt g = None
  <-> (state !! "step" = Some "booked"
       \/ (state !! "step" = Some "confirm"
           /\ contains "yes" (lower (form_get form "SpeechResult")) = true)).
Proof.
  intros Hg state.
  destruct (gather_response_turn form active_calls)
    as (g0 & d' & E & Ht & _ & _ & Hnp).
  rewrite Hg in E. injection E as <-. fold state in Ht. rewrite Hnp.
  destruct yes_no_space as [H1 H2].
  pose proof (PyStrFacts.contains_lower_strip "yes"
                (form_get form "SpeechResult") H1 H2) as Hraw.
  split.
  - intros Hb. inversion Ht; subst;
      try (rewrite lookup_insert_eq in Hb; discriminate Hb);
      try (vm_compute in Hb; discriminate Hb).
    + now left.
    + right. split; [assumption | congruence].
    + now left.
    + now left.
  - intros [Hb|[Hc Hy]].
    + inversion Ht; subst; try assumption; congruence.
    + pose proof (yes_nonblank _ Hy) as Hne.
      inversion Ht; subst; try congruence.
      * apply lookup_insert_eq.
      * match goal with
        | Hk : known_step ?s = false, Hs : _ !! "step" = Some ?s |- _ =>
            rewrite Hc in Hs; injection Hs as <-; discriminate Hk
        end.
Qed.

Lemma hangup_iff_booked_witness :
  exists g,
    gather_response {[ "CallSid" := "CA1"; "SpeechResult" := "Yes!" ]}
      {[ "CA1" := {[ "step" := "confirm" ]} ]} = Returns g
    /\ next_prompt g = None.
Proof.
  destruct (gather_response_turn
              {[ "CallSid" := "CA1"; "SpeechResult" := "Yes!" ]}
              {[ "CA1" := {[ "step" := "confirm" ]} ]}) as (g & _ & E & _).
  exists g. split; [exact E|].
  apply (hangup_iff_booked _ _ g E).
  right. split; reflexivity.
Defined.

(** A speech result without speech (no SpeechResult field, or a blank one)
    for a call that has a record leaves the whole table as it is; for a call
    without a record it files the fresh record under the call identifier. *)
Theorem silent_speech_keeps_table (form : dict) (active_calls : calls) :
  nonblank (form_get form "SpeechResult") = false ->
  exists g,
    gather_response form active_calls = Returns g
    /\ (is_Some (active_calls !! form_get form "CallSid") ->
        table g = active_calls)
    /\ (active_calls !! form_get form "CallSid" = None ->
        table g = <[form_get form "CallSid" := fresh]> active_calls).
Proof.
  intros Hb. apply nonblank_false in Hb.
  destruct (gather_response_turn form active_calls)
    as (g & d' & E & Ht & _ & Hg & _).
  exists g. split; [exact E|].
  assert (Hd : d' = (lookup_state (form_get form "CallSid") active_calls).1)
    by (inversion Ht; subst; congruence).
  rewrite Hg, Hd. unfold lookup_state. cbn [fst].
  split.
  - intros [d Hsome]. rewrite Hsome. cbn [default from_option id].
    now apply insert_id.
  - intros ->. reflexivity.
Qed.

Lemma silent_speech_keeps_table_witness :
  exists g,
    gather_response {[ "CallSid" := "CA1" ]}
      {[ "CA1" := {[ "step" := "ask_dates" ]} ]} = Returns g
    /\ table g = {[ "CA1" := {[ "step" := "ask_dates" ]} ]}.
Proof.
  assert (Hb : nonblank (form_get ({[ "CallSid" := "CA1" ]} : dict) "SpeechResult")
               = false) by reflexivity.
  destruct (silent_speech_keeps_table {[ "CallSid" := "CA1" ]}
              {[ "CA1" := {[ "step" := "ask_dates" ]} ]} Hb)
    as (g & E & H & _).
  exists g. split; [exact E|]. apply H. by eexists.
Defined.

(** *** Every record of the table is well formed *)

Lemma well_formed_fresh : well_formed fresh.
Proof.
  split; [reflexivity|]. split; [reflexivity | exact answers_clean_fresh].
Qed.

Lemma turn_process (u : string) (d d' : dict) :
  turn u d d' -> exists r, process_user_input u (PyDict d) = Returns (r, d').
Proof.
  intros Ht. inversion Ht; subst.
  - destruct (Engine.process_blank u d') as (r & Hr & _); eauto.
  - eauto using Engine.process_no_step.
  - eauto using Engine.process_ask_location.
  - eauto using Engine.process_ask_dates.
  - eauto using Engine.process_ask_room_type.
  - eauto using Engine.process_confirm_yes.
  - eauto using Engine.process_confirm_no.
  - eauto using Engine.process_booked.
  - eauto using Engine.process_unknown.
Qed.

Lemma well_formed_turn (u : string) (d d' : dict) :
  turn u d d' -> well_formed d -> well_formed d'.
Proof.
  intros Ht (Hv & Hf & Ha). split; [|split].
  - exact (valid_step_turn u d d' Ht Hv).
  - destruct (field_order_step u d Hf) as (r1 & d1 & Hp1 & Hf1).
    destruct (turn_process u d d' Ht) as (r & Hp).
    rewrite Hp in Hp1. now injection Hp1 as _ <-.
  - exact (answers_clean_turn u d d' Ht Ha).
Qed.

Lemma serve_records_well_formed (reqs : list request) (active_calls : calls) :
  map_Forall (fun _ d => well_formed d) active_calls ->
  exists t',
    serve reqs active_calls = Returns t'
    /\ map_Forall (fun _ d => well_formed d) t'.
Proof.
  revert active_calls. induction reqs as [|req reqs IH]; intros t Hall.
  { by exists t. }
  destruct req as [form|form]; cbn [serve].
  - apply IH. unfold incoming_call, setdefault.
    destruct (negb (is_empty (form_get form "CallSid"))); [|exact Hall].
    destruct (t !! form_get form "CallSid"); [exact Hall|].
    apply map_Forall_insert_2; [exact well_formed_fresh | exact Hall].
  - destruct (gather_response_turn form t) as (g & d' & -> & Ht & _ & Hg & _).
    apply IH. rewrite Hg. apply map_Forall_insert_2; [|exact Hall].
    apply (well_formed_turn _ _ _ Ht).
    unfold lookup_state. cbn [fst].
    destruct (t !! form_get form "CallSid") as [d|] eqn:Hd;
      cbn [default from_option id].
    + exact (Hall _ d Hd).
    + exact well_formed_fresh.
Qed.

(** The table holds well-formed records only, for good: if every record is
    at one of the five steps, holds exactly the answers that step stands for,
    and holds them as non-empty trimmed texts, then so does every record of
    the table left by any sequence of call starts and speech results that
    has been served, for any call identifiers and any utterances.  The
    empty table the server starts with is such a table. *)
Theorem serve_well_formed (reqs : list request) (active_calls t' : calls) :
  map_Forall (fun _ d => well_formed d) active_calls ->
  serve reqs active_calls = Returns t' ->
  map_Forall (fun _ d => well_formed d) t'.
Proof.
  intros Hall Hs.
  destruct (serve_records_well_formed reqs active_calls Hall) as (t0 & E & H).
  rewrite Hs in E. now injection E as <-.
Qed.

Lemma serve_well_formed_witness :
  let reqs :=
    [CallStart {[ "CallSid" := "CA1" ]};
     SpeechResult {[ "CallSid" := "CA1"; "SpeechResult" := " Paris " ]};
     SpeechResult {[ "SpeechResult" := "hello" ]}] in
  let t' : calls :=
    <["" := <["step" := "ask_dates"]> (<["location" := "hello"]> fresh)]>
      {[ "CA1" := <["step" := "ask_dates"]> (<["location" := "Paris"]> fresh) ]} in
  serve reqs ∅ = Returns t' /\ map_Forall (fun _ d => well_formed d) t'.
Proof.
  intros reqs t'.
  assert (E : serve reqs ∅ = Returns t') by (vm_compute; reflexivity).
  split; [exact E|].
  apply (serve_well_formed reqs ∅ t'); [apply map_Forall_empty | exact E].
Defined.
